(** * gsbq: Google Sheets to BigQuery transfer, verified model

    A shallow embedding of [gsbq/app.py].  The script is glue code over
    three client libraries: the Sheets API client (source), polars (table
    construction) and the BigQuery client (sink).  The functions of
    [app.py] are embedded one to one; the library calls they make are
    embedded as explicit models of the behaviour the script relies on:
    Python's own list, string and exception semantics in [Py], the polars
    row constructor on text cells in [pl], the Sheets reply in [sheets] and
    the warehouse as an explicit remote state, with a log of the requests
    it receives, in [bigquery]. *)

From Stdlib Require Import Ascii String.
From stdpp Require Import base strings list gmap pretty.

(** ** Python values, exceptions and results *)

Module Py.

(** The exceptions that can reach the script.  [IndexError], [ValueError]
    and [TypeError] are Python's own; [ShapeError] and [DuplicateError] are
    raised by polars; [NotFound] to [ServiceUnavailable] are
    [google.api_core.exceptions] classes ([NotFound] is the one the script
    catches); [HttpError] is the Sheets client's. *)
Inductive exn : Type :=
  | IndexError
  | ValueError
  | TypeError
  | ShapeError
  | DuplicateError
  | NotFound
  | Forbidden
  | Conflict
  | BadRequest
  | ServiceUnavailable
  | HttpError.

#[global] Instance exn_eq_dec : EqDecision exn.
Proof. solve_decision. Defined.

(** A computation either returns or raises. *)
Inductive result (A : Type) : Type :=
  | Ok (a : A)
  | Err (e : exn).
Arguments Ok {A} a.
Arguments Err {A} e.

Definition bind {A B} (r : result A) (k : A -> result B) : result B :=
  match r with
  | Ok a => k a
  | Err e => Err e
  end.


(** [l[0]]: raises [IndexError] on the empty list. *)
Definition index0 {A} (l : list A) : result A :=
  match l with
  | [] => Err IndexError
  | x :: _ => Ok x
  end.

(** [l[1:]]: a slice never raises; out of range it is empty. *)
Definition slice_from1 {A} (l : list A) : list A := drop 1 l.

(** [l[:n]]. *)
Definition slice_to {A} (n : nat) (l : list A) : list A := take n l.

(** [zip(a, b, strict=True)], consumed by a [for] loop: raises
    [ValueError] when one argument is exhausted before the other. *)
Fixpoint zip_strict {A B} (a : list A) (b : list B) : result (list (A * B)) :=
  match a, b with
  | [], [] => Ok []
  | x :: a', y :: b' => bind (zip_strict a' b') (fun r => Ok ((x, y) :: r))
  | _, _ => Err ValueError
  end.

(** [s.split(sep)] for a separator of one character, which is how the
    script calls it: every occurrence of [sep] ends a segment, and empty
    segments are kept. *)
Fixpoint str_split (sep : ascii) (s : string) : list string :=
  match s with
  | EmptyString => [EmptyString]
  | String c s' =>
      if decide (c = sep) then EmptyString :: str_split sep s'
      else match str_split sep s' with
           | [] => [String c EmptyString]
           | w :: ws => String c w :: ws
           end
  end.

(** [sep.join(l)]. *)
Fixpoint str_join (sep : string) (l : list string) : string :=
  match l with
  | [] => EmptyString
  | x :: rest =>
      match rest with
      | [] => x
      | _ :: _ => x +:+ sep +:+ str_join sep rest
      end
  end.

End Py.

Import Py.

Notation "x <- r ;; k" := (bind r (fun x => k))
  (at level 100, r at next level, right associativity).

(** ** polars: data types, frames and the row constructor *)

(** The script builds its table with
    [pl.DataFrame(data[1:], schema=data[0], orient="row")].  This module
    models that call for the arguments the script passes: rows that are
    lists of Python [str] and a schema that is a list of [str].  It follows
    the path the call takes inside polars: [sequence_to_pydf], then
    [_unpack_schema], [PyDataFrame.from_rows] and [_post_apply_columns], or
    [dict_to_pydf] when there is no row.  Cell values are never parsed on
    that path: the type of a column comes from the Python type of its
    cells. *)

Module pl.

Inductive TimeUnit : Type := ns | us | ms.

(** The polars data types.  [Utf8] is [pl.String] (the same type under its
    two names). *)
Inductive DataType : Type :=
  | Int8 | Int16 | Int32 | Int64
  | UInt8 | UInt16 | UInt32 | UInt64
  | Float32 | Float64
  | Boolean
  | Utf8
  | Binary
  | Date
  | Datetime (time_unit : TimeUnit) (time_zone : option string)
  | Duration (time_unit : TimeUnit)
  | Time
  | Categorical
  | Object
  | Null
  | List (inner : DataType).

Inductive AnyValue : Type :=
  | AvNull
  | AvBoolean (b : bool)
  | AvInt64 (z : Z)
  | AvFloat64 (bits : Z)
  | AvString (s : string).

Record Series : Type := mkSeries {
  name : string;
  dtype : DataType;
  values : list AnyValue
}.

(** A frame is the ordered list of its columns. *)
Abbreviation DataFrame := (list Series).

Definition columns (df : DataFrame) : list string := name <$> df.
Definition dtypes (df : DataFrame) : list DataType := dtype <$> df.
Definition width (df : DataFrame) : nat := length df.
Definition height (df : DataFrame) : nat :=
  match df with
  | [] => 0
  | s :: _ => length (values s)
  end.

(** The name polars gives to a column without one. *)
Definition auto_name (i : nat) : string := "column_" +:+ pretty i.

(** [_unpack_schema] for a schema that is a list of names: a blank name
    is replaced by [column_i]; with no names at all, [n_expected] automatic
    names are made; a number of names other than the expected width is a
    [ShapeError]. *)
Definition unpack_schema (schema : list string) (n_expected : option nat)
  : result (list string) :=
  match schema with
  | [] => Ok (match n_expected with
              | Some n => auto_name <$> seq 0 n
              | None => []
              end)
  | _ :: _ =>
      let column_names :=
        imap (fun i col => if decide (col = EmptyString) then auto_name i else col) schema in
      match n_expected with
      | Some n =>
          if decide (length column_names = n) then Ok column_names
          else Err ShapeError
      | None => Ok column_names
      end
  end.

Definition ensure_names_unique (names : list string) : result unit :=
  if decide (NoDup names) then Ok () else Err DuplicateError.

(** [DataFrame::new]: column names must be unique and all columns must
    have the height of the first one. *)
Definition DataFrame_new (cols : list Series) : result DataFrame :=
  _ <- ensure_names_unique (name <$> cols);;
  match cols with
  | [] => Ok []
  | c :: rest =>
      if forallb (fun s => length (values s) =? length (values c)) rest
      then Ok cols
      else Err ShapeError
  end.

(** The cells that the rows contribute to column [j]: each row is zipped
    with the column builders, so a row with no cell at [j] contributes
    nothing to that column, and cells beyond the last builder are
    ignored. *)
Definition column_cells (j : nat) (rows : list (list string)) : list string :=
  omap (fun row => row !! j) rows.

(** [PyDataFrame.from_rows] on text cells: the width is that of the first
    row, columns get automatic names, and a Python [str] is a polars
    string, whatever it spells. *)
Definition from_rows (first : list string) (rest : list (list string))
  : result DataFrame :=
  DataFrame_new
    ((fun j => mkSeries (auto_name j) Utf8
                 (AvString <$> column_cells j (first :: rest)))
       <$> seq 0 (length first)).

Definition set_column_names (df : DataFrame) (names : list string)
  : result DataFrame :=
  if decide (length names = width df) then
    _ <- ensure_names_unique names;;
    Ok (zip_with (fun n s => mkSeries n (dtype s) (values s)) names df)
  else Err ShapeError.

(** [_post_apply_columns] with names only (the width was checked by
    [unpack_schema], so no column is dropped here). *)
Definition post_apply_columns (df : DataFrame) (names : list string)
  : result DataFrame :=
  if decide (names = columns df) then Ok df else set_column_names df names.

(** [pl.DataFrame(data, schema=schema, orient="row")] for rows of text
    cells and a schema that is a list of names.  Without rows the frame has
    one empty column of type [Null] per name. *)
Definition DataFrame_init (data : list (list string)) (schema : list string)
  : result DataFrame :=
  match data with
  | [] =>
      names <- unpack_schema schema None;;
      DataFrame_new ((fun n => mkSeries n Null []) <$> names)
  | first :: rest =>
      names <- unpack_schema schema (Some (length first));;
      df <- from_rows first rest;;
      post_apply_columns df names
  end.

(** [df.to_pandas()]: the columns with their values. *)
Definition to_pandas (df : DataFrame) : list (string * list AnyValue) :=
  (fun s => (name s, values s)) <$> df.

End pl.

(** ** The Sheets client *)

(** The grid of a sheet: rows of cells.  The script calls [values().get]
    with the spreadsheet and the range only; the render option is then the
    default one, under which the service returns every cell as formatted
    text, so a cell is a Python [str]. *)
Abbreviation RawGrid := (list (list string)).

Module sheets.

(** The reply to [values().get]: the [values] entry is absent when the
    range holds no data. *)
Record ValueRange : Type := mkValueRange {
  range : string;
  majorDimension : string;
  values : option RawGrid
}.

(** [values().get(spreadsheetId, range).execute()]. *)
Definition Service : Type := string -> string -> result ValueRange.

End sheets.

(** ** The BigQuery client and the warehouse behind it *)

Module bigquery.

Record SchemaField : Type := mkSchemaField {
  name : string;
  field_type : string
}.

Record LoadJobConfig : Type := mkLoadJobConfig {
  autodetect : bool;
  write_disposition : string
}.

Record Dataset : Type := mkDataset { dataset_id : string }.

Record Table : Type := mkTable {
  table_id : string;
  schema : list SchemaField
}.

(** [bigquery.Dataset(dataset_id)] and [bigquery.Table(table_id, schema)]
    parse the identifier and raise [ValueError] unless it has two,
    respectively three, dot-separated parts (identifiers with a legacy
    domain prefix [domain:project] are not modelled). *)
Definition Dataset_init (dataset_id : string) : result Dataset :=
  if decide (length (str_split "." dataset_id) = 2)
  then Ok (mkDataset dataset_id) else Err ValueError.

Definition Table_init (table_id : string) (schema : list SchemaField)
  : result Table :=
  if decide (length (str_split "." table_id) = 3)
  then Ok (mkTable table_id schema) else Err ValueError.

Inductive JobState : Type := RUNNING | DONE.

Record LoadJob : Type := mkLoadJob {
  destination : string;
  job_config : LoadJobConfig;
  payload : list (string * list pl.AnyValue);
  state : JobState;
  error_result : option exn
}.

(** The requests the client sends. *)
Inductive request : Type :=
  | GetDataset (dataset_id : string)
  | CreateDataset (dataset : Dataset)
  | GetTable (table_id : string)
  | CreateTable (table : Table)
  | Load (payload : list (string * list pl.AnyValue)) (destination : string)
         (config : LoadJobConfig)
  | WaitJob (job : nat).

(** The world the client acts on: the datasets and tables of the
    warehouse, its load jobs, the requests received so far (oldest first),
    a schedule of failures (one entry is consumed per request; [Some e]
    makes that request fail with [e]) and the lines printed. *)
Record World : Type := mkWorld {
  datasets : gset string;
  tables : gmap string (list SchemaField);
  jobs : list LoadJob;
  calls : list request;
  faults : list (option exn);
  stdout : list string
}.

Definition next_fault (w : World) : option exn :=
  match faults w with
  | Some e :: _ => Some e
  | _ => None
  end.

(** A client action: it changes the world and returns or raises. *)
Definition M (A : Type) : Type := World -> result A * World.

Definition lift {A} (r : result A) : M A := fun w => (r, w).

Definition mbind {A B} (m : M A) (k : A -> M B) : M B := fun w =>
  match m w with
  | (Ok a, w') => k a w'
  | (Err e, w') => (Err e, w')
  end.

(** [try: m except E: handler], where [catches] says which exceptions are
    instances of [E]. *)
Definition try_except {A} (m : M A) (catches : exn -> bool) (handler : M A)
  : M A := fun w =>
  match m w with
  | (Err e, w') => if catches e then handler w' else (Err e, w')
  | r => r
  end.

Definition print (line : string) : M unit := fun w =>
  (Ok (), mkWorld (datasets w) (tables w) (jobs w) (calls w) (faults w)
            (stdout w ++ [line])).

(** Sending a request records it and consumes one entry of the failure
    schedule. *)
Definition send (r : request) : M unit := fun w =>
  let w' := mkWorld (datasets w) (tables w) (jobs w) (calls w ++ [r])
              (drop 1 (faults w)) (stdout w) in
  match next_fault w with
  | Some e => (Err e, w')
  | None => (Ok (), w')
  end.

Definition get_dataset (dataset_id : string) : M unit :=
  mbind (send (GetDataset dataset_id)) (fun _ w =>
    if decide (dataset_id ∈ datasets w) then (Ok (), w) else (Err NotFound, w)).

Definition create_dataset (dataset : Dataset) : M unit :=
  mbind (send (CreateDataset dataset)) (fun _ w =>
    if decide (dataset_id dataset ∈ datasets w) then (Err Conflict, w)
    else (Ok (), mkWorld ({[dataset_id dataset]} ∪ datasets w) (tables w)
                   (jobs w) (calls w) (faults w) (stdout w))).

Definition get_table (table_id : string) : M unit :=
  mbind (send (GetTable table_id)) (fun _ w =>
    match tables w !! table_id with
    | Some _ => (Ok (), w)
    | None => (Err NotFound, w)
    end).

(** The dataset a table belongs to: the first two parts of its
    identifier. *)
Definition parent_dataset (table_id : string) : string :=
  str_join "." (take 2 (str_split "." table_id)).

(** A table can only be created in a dataset that exists. *)
Definition create_table (table : Table) : M unit :=
  mbind (send (CreateTable table)) (fun _ w =>
    if decide (parent_dataset (table_id table) ∈ datasets w) then
      match tables w !! table_id table with
      | Some _ => (Err Conflict, w)
      | None =>
          (Ok (), mkWorld (datasets w)
                    (<[table_id table := schema table]> (tables w))
                    (jobs w) (calls w) (faults w) (stdout w))
      end
    else (Err NotFound, w)).

(** [client.load_table_from_dataframe]: an accepted request starts a job
    and returns its handle. *)
Definition load_table_from_dataframe (payload : list (string * list pl.AnyValue))
    (destination : string) (config : LoadJobConfig) : M nat :=
  mbind (send (Load payload destination config)) (fun _ w =>
    (Ok (length (jobs w)),
     mkWorld (datasets w) (tables w)
       (jobs w ++ [mkLoadJob destination config payload RUNNING None])
       (calls w) (faults w) (stdout w))).

(** [job.result()]: waits for the job to finish.  When the call returns or
    raises, the job is [DONE]; the entry of the failure schedule says
    whether the job ended in error, and that error is raised. *)
Definition job_result (job : nat) : M unit := fun w =>
  let outcome := next_fault w in
  let finish (j : LoadJob) :=
    mkLoadJob (destination j) (job_config j) (payload j) DONE outcome in
  let w' := mkWorld (datasets w) (tables w) (alter finish job (jobs w))
              (calls w ++ [WaitJob job]) (drop 1 (faults w)) (stdout w) in
  match outcome with
  | Some e => (Err e, w')
  | None => (Ok (), w')
  end.

End bigquery.

Notation "x <-- m ;;; k" := (bigquery.mbind m (fun x => k))
  (at level 100, m at next level, right associativity).

(** ** The script *)

Module app.

(** [get_sheet_data]: [data.get("values", [])] on the reply. *)
Definition get_sheet_data (service : sheets.Service)
    (spreadsheet_id sheet_name : string) : result RawGrid :=
  data <- service spreadsheet_id sheet_name;;
  Ok (default [] (sheets.values data)).

(** [convert_data_to_dataframe]: the arguments of the constructor are
    evaluated in order, [data[1:]] and then [data[0]]. *)
Definition convert_data_to_dataframe (data : RawGrid) : result pl.DataFrame :=
  let rows := slice_from1 data in
  header <- index0 data;;
  pl.DataFrame_init rows header.

(** The [if]/[elif] chain of [create_table_if_not_exists].  A data type
    compares equal to [pl.Datetime] whatever its unit and zone. *)
Definition field_type_of (dtype : pl.DataType) : string :=
  match dtype with
  | pl.Int64 => "INTEGER"
  | pl.Float64 => "FLOAT"
  | pl.Boolean => "BOOLEAN"
  | pl.Datetime _ _ => "DATETIME"
  | pl.Date => "DATE"
  | _ => "STRING"
  end.

(** The loop that fills [schema]. *)
Definition build_schema (df : pl.DataFrame) : result (list bigquery.SchemaField) :=
  pairs <- zip_strict (pl.columns df) (pl.dtypes df);;
  Ok (fold_left
        (fun schema '(col_name, dtype) =>
           schema ++ [bigquery.mkSchemaField col_name (field_type_of dtype)])
        pairs []).

Definition is_NotFound (e : exn) : bool := bool_decide (e = NotFound).

Definition create_dataset_if_not_exists (dataset_id : string) : bigquery.M unit :=
  dataset <-- bigquery.lift (bigquery.Dataset_init dataset_id);;;
  bigquery.try_except
    (bigquery.get_dataset dataset_id)
    is_NotFound
    (_ <-- bigquery.create_dataset dataset;;;
     bigquery.print ("Dataset " +:+ dataset_id +:+ " created.")).

Definition create_table_if_not_exists (table_id : string) (df : pl.DataFrame)
  : bigquery.M unit :=
  schema <-- bigquery.lift (build_schema df);;;
  table <-- bigquery.lift (bigquery.Table_init table_id schema);;;
  bigquery.try_except
    (bigquery.get_table table_id)
    is_NotFound
    (_ <-- bigquery.create_table table;;;
     bigquery.print ("Table " +:+ table_id +:+ " created.")).

Definition job_config : bigquery.LoadJobConfig :=
  bigquery.mkLoadJobConfig true "WRITE_APPEND".

Definition upload_to_bigquery (dataframe : pl.DataFrame) (table_id : string)
  : bigquery.M unit :=
  job <-- bigquery.load_table_from_dataframe (pl.to_pandas dataframe) table_id
            job_config;;;
  bigquery.job_result job.

(** Line 107: [".".join(table_id.split(".")[:2])]. *)
Definition dataset_id_of (table_id : string) : string :=
  str_join "." (slice_to 2 (str_split "."%char table_id)).

(** Lines 109 and 110: the two provisioning calls of the main block. *)
Definition provision (dataset_id table_id : string) (df : pl.DataFrame)
  : bigquery.M unit :=
  _ <-- create_dataset_if_not_exists dataset_id;;;
  create_table_if_not_exists table_id df.

End app.

(** ** The main block *)

Module main.

Definition sheet_name : string := "Sheet1".
Definition spreadsheet_id : string :=
  "1Ba5nr8nzBh2MSVzIOpvtmHtzWqjDT4aP5G2YBkZN1mk".
Definition table_id : string := "gsbq-demo.gsbq_dataset.sample_table".

(** Lines 104 to 114, with the two clients that [authenticate] returned
    (line 102): the Sheets service is the argument and the BigQuery client
    acts on the world. *)
Definition run (sheets_service : sheets.Service) : bigquery.M unit :=
  raw_data <-- bigquery.lift
                 (app.get_sheet_data sheets_service spreadsheet_id sheet_name);;;
  processed_data <-- bigquery.lift (app.convert_data_to_dataframe raw_data);;;
  let dataset_id := app.dataset_id_of table_id in
  _ <-- app.create_dataset_if_not_exists dataset_id;;;
  _ <-- app.create_table_if_not_exists table_id processed_data;;;
  _ <-- app.upload_to_bigquery processed_data table_id;;;
  bigquery.print "Data successfully transferred from Google Sheets to BigQuery.".

End main.

(** ** The Airflow DAG *)

(** The functions of Python's [os] module that [airflow/dags/app.py]
    calls. *)
Module os.

(** [os.getenv(key, default)]: the default is used only when the variable
    is not set. *)
Definition getenv (environ : gmap string string) (key fallback : string) : string :=
  match environ !! key with
  | Some value => value
  | None => fallback
  end.

(** [s.startswith(c)] and [s.endswith(c)] for a one-character [c]. *)
Definition startswith (c : ascii) (s : string) : bool :=
  match s with
  | EmptyString => false
  | String d _ => bool_decide (d = c)
  end.

Fixpoint endswith (c : ascii) (s : string) : bool :=
  match s with
  | EmptyString => false
  | String d EmptyString => bool_decide (d = c)
  | String _ s' => endswith c s'
  end.

(** One turn of the loop of [posixpath.join]: an absolute component
    replaces the path; otherwise it is appended, after a separator unless
    the path is empty or already ends with one. *)
Definition path_join_step (path b : string) : string :=
  if startswith "/" b then b
  else if bool_decide (path = EmptyString) || endswith "/" path then path +:+ b
  else path +:+ "/" +:+ b.

(** [os.path.join(a, *p)]. *)
Definition path_join (a : string) (p : list string) : string :=
  fold_left path_join_step p a.

End os.

Module dags.

(** Lines 26 to 28 of the DAG file. *)
Definition gsbq_script_path (environ : gmap string string) : string :=
  os.path_join (os.getenv environ "AIRFLOW_HOME" "/usr/local/airflow")
    ["gsbq"; "app.py"].

(** The command of the [run_script] task (line 31). *)
Definition bash_command (environ : gmap string string) : string :=
  "python " +:+ gsbq_script_path environ.

End dags.

(** ** Vocabulary of the statements *)

Fixpoint has_char (c : ascii) (s : string) : bool :=
  match s with
  | EmptyString => false
  | String d s' => if decide (d = c) then true else has_char c s'
  end.

Definition is_digit (c : ascii) : bool :=
  let n := nat_of_ascii c in (48 <=? n) && (n <=? 57).

Fixpoint all_digits (s : string) : bool :=
  match s with
  | EmptyString => true
  | String c s' => is_digit c && all_digits s'
  end.

(** Text that reads as an integer, which is what the claim about type
    inference calls a value parseable as an integer: an optional sign and
    one or more digits. *)
Definition is_integer_text (s : string) : bool :=
  match s with
  | EmptyString => false
  | String c s' =>
      if bool_decide (c = "-"%char) || bool_decide (c = "+"%char)
      then negb (bool_decide (s' = EmptyString)) && all_digits s'
      else all_digits s
  end.

(** A header whose cells are all names: no cell is blank. *)
Definition named (header : list string) : Prop :=
  Forall (fun col => col <> EmptyString) header.

(** A grid whose data rows all have as many cells as the header. *)
Definition rectangular (header : list string) (rows : list (list string)) : Prop :=
  Forall (fun row => length row = length header) rows.

(** Columns of type string: the one named [n] at position [j] holds the
    cells that the rows have at [j]. *)
Definition text_columns (rows : list (list string)) (names : list string)
    (js : list nat) : pl.DataFrame :=
  zip_with
    (fun n j => pl.mkSeries n pl.Utf8 (pl.AvString <$> pl.column_cells j rows))
    names js.

(** The frame with the columns [header], each of type string and holding
    the cells that the rows have in its position. *)
Definition text_frame (header : list string) (rows : list (list string))
  : pl.DataFrame :=
  text_columns rows header (seq 0 (length header)).

(** The frame with the columns [header] and no rows. *)
Definition empty_frame (header : list string) : pl.DataFrame :=
  (fun n => pl.mkSeries n pl.Null []) <$> header.

(** The field of the destination schema for a column. *)
Definition field_of (s : pl.Series) : bigquery.SchemaField :=
  bigquery.mkSchemaField (pl.name s) (app.field_type_of (pl.dtype s)).

(** No failure is scheduled for the next [n] requests. *)
Definition quiet (n : nat) (w : bigquery.World) : Prop :=
  Forall (fun f => f = None) (take n (bigquery.faults w)).

(** The world after it has received the request [r]. *)
Definition received (r : bigquery.request) (w : bigquery.World) : bigquery.World :=
  bigquery.mkWorld (bigquery.datasets w) (bigquery.tables w) (bigquery.jobs w)
    (bigquery.calls w ++ [r]) (drop 1 (bigquery.faults w)) (bigquery.stdout w).

(** The lines the script prints. *)
Definition dataset_notice (dataset_id : string) : string :=
  "Dataset " +:+ dataset_id +:+ " created.".

Definition table_notice (table_id : string) : string :=
  "Table " +:+ table_id +:+ " created.".

Definition success_line : string :=
  "Data successfully transferred from Google Sheets to BigQuery.".

(** The load job of the script for a table, once it has ended. *)
Definition finished_job (df : pl.DataFrame) (outcome : option exn)
  : bigquery.LoadJob :=
  bigquery.mkLoadJob main.table_id app.job_config (pl.to_pandas df)
    bigquery.DONE outcome.

(** The segments of an identifier hold no separator. *)
Definition dot_free (segments : list string) : Prop :=
  Forall (fun seg => has_char "." seg = false) segments.


(** ** Strings *)

Lemma dataset_id_of_parent table_id :
  app.dataset_id_of table_id = bigquery.parent_dataset table_id.
Proof. reflexivity. Qed.

Lemma str_split_segment sep p rest :
  has_char sep p = false ->
  str_split sep (p +:+ String sep rest) = p :: str_split sep rest.
Proof.
  induction p as [|c p IH]; simpl; intros Hp.
  - by rewrite decide_True.
  - case_decide; [done|]. by rewrite IH.
Qed.

(** C9.  For a table identifier [project.dataset.table] (no dot inside the
    project and dataset segments), the dataset identifier computed by the
    script is [project.dataset]. *)
Theorem dataset_id_first_two_segments (project dataset table : string) :
  has_char "." project = false ->
  has_char "." dataset = false ->
  app.dataset_id_of (project +:+ "." +:+ dataset +:+ "." +:+ table)
  = project +:+ "." +:+ dataset.
Proof.
  intros Hp Hd. unfold app.dataset_id_of, slice_to.
  change (project +:+ "." +:+ dataset +:+ "." +:+ table)
    with (project +:+ String "." (dataset +:+ String "." table)).
  rewrite (str_split_segment "." project) by done.
  rewrite (str_split_segment "." dataset) by done.
  simpl. by destruct (str_split "." table).
Qed.

Lemma dataset_id_first_two_segments_witness :
  app.dataset_id_of "gsbq-demo.gsbq_dataset.sample_table"
  = "gsbq-demo.gsbq_dataset".
Proof.
  apply (dataset_id_first_two_segments "gsbq-demo" "gsbq_dataset" "sample_table");
    reflexivity.
Defined.

(** ** The table constructor *)

#[local] Instance auto_name_inj : Inj (=) (=) pl.auto_name.
Proof.
  intros i j H. unfold pl.auto_name in H.
  apply (inj pretty). by simplify_eq/=.
Qed.

Lemma auto_names_NoDup n : NoDup (pl.auto_name <$> seq 0 n).
Proof. apply NoDup_fmap_2; [apply _|apply NoDup_seq]. Qed.

Lemma imap_named (f : nat -> string) header :
  named header ->
  imap (fun i col => if decide (col = EmptyString) then f i else col) header = header.
Proof.
  intros Hn. revert f. induction Hn as [|col header Hcol _ IH]; intros f; [done|].
  rewrite imap_cons. rewrite decide_False by done. f_equal. apply (IH (f ∘ S)).
Qed.

Lemma unpack_schema_named header n :
  named header -> length header = n ->
  pl.unpack_schema header (Some n) = Ok header.
Proof.
  intros Hn Hlen. unfold pl.unpack_schema.
  destruct header as [|col header]; [by subst n|].
  rewrite imap_named by done. by rewrite decide_True.
Qed.

Lemma unpack_schema_named_None header :
  named header -> pl.unpack_schema header None = Ok header.
Proof.
  intros Hn. unfold pl.unpack_schema. destruct header as [|col header]; [done|].
  by rewrite imap_named.
Qed.

Lemma unpack_schema_width_mismatch schema n :
  schema <> [] -> length schema <> n ->
  pl.unpack_schema schema (Some n) = Err ShapeError.
Proof.
  intros Hne Hlen. unfold pl.unpack_schema. destruct schema as [|c schema]; [done|].
  rewrite decide_False; [done|]. by rewrite length_imap.
Qed.

Lemma columns_empty_frame names : pl.columns (empty_frame names) = names.
Proof. induction names as [|n names IH]; [done|]. simpl. by f_equal. Qed.

Lemma DataFrame_new_empty_columns names :
  NoDup names -> pl.DataFrame_new (empty_frame names) = Ok (empty_frame names).
Proof.
  intros Hnd. unfold pl.DataFrame_new, pl.ensure_names_unique.
  fold (pl.columns (empty_frame names)). rewrite columns_empty_frame.
  rewrite decide_True by done. simpl.
  destruct names as [|n names]; [done|]. simpl.
  replace (forallb _ _) with true; [done|].
  symmetry. apply forallb_forall. intros s Hs. apply in_map_iff in Hs as (?&<-&_). done.
Qed.

Lemma DataFrame_new_errors cols e :
  pl.DataFrame_new cols = Err e -> e = ShapeError \/ e = DuplicateError.
Proof.
  unfold pl.DataFrame_new, pl.ensure_names_unique.
  case_decide; simpl; [|naive_solver].
  destruct cols; [done|]. case_match; naive_solver.
Qed.

Lemma unpack_schema_errors schema n e :
  pl.unpack_schema schema n = Err e -> e = ShapeError.
Proof.
  unfold pl.unpack_schema. destruct schema; [done|].
  destruct n; [|done]. case_decide; naive_solver.
Qed.

Lemma DataFrame_init_errors data schema e :
  pl.DataFrame_init data schema = Err e -> e = ShapeError \/ e = DuplicateError.
Proof.
  unfold pl.DataFrame_init. destruct data as [|first rest].
  - destruct (pl.unpack_schema schema None) eqn:Hu; simpl.
    + apply DataFrame_new_errors.
    + intros [= <-]. left. by eapply unpack_schema_errors.
  - destruct (pl.unpack_schema _ _) eqn:Hu; simpl.
    2:{ intros [= <-]. left. by eapply unpack_schema_errors. }
    unfold pl.from_rows. destruct (pl.DataFrame_new _) eqn:Hn; simpl.
    2:{ intros [= <-]. by eapply DataFrame_new_errors. }
    unfold pl.post_apply_columns, pl.set_column_names, pl.ensure_names_unique.
    repeat case_decide; simpl; naive_solver.
Qed.

Lemma DataFrame_new_ok cols h :
  NoDup (pl.columns cols) ->
  (forall s, s ∈ cols -> length (pl.values s) = h) ->
  pl.DataFrame_new cols = Ok cols.
Proof.
  intros Hnd Hh. unfold pl.DataFrame_new, pl.ensure_names_unique.
  fold (pl.columns cols). rewrite decide_True by done. simpl.
  destruct cols as [|c rest]; [done|].
  replace (forallb _ rest) with true; [done|].
  symmetry. apply forallb_forall. intros s Hs%list_elem_of_In.
  apply Nat.eqb_eq. rewrite !Hh; [done|by left|by right].
Qed.

Lemma DataFrame_new_unique cols df :
  pl.DataFrame_new cols = Ok df -> df = cols /\ NoDup (pl.columns df).
Proof.
  unfold pl.DataFrame_new, pl.ensure_names_unique.
  case_decide as Hnd; simpl; [|done].
  destruct cols as [|c rest]; [by intros [= <-]|].
  case_match; [|done]. by intros [= <-].
Qed.

(** *** Columns built from rows *)

Lemma column_cells_cons j row rows :
  pl.column_cells j (row :: rows)
  = match row !! j with
    | Some c => c :: pl.column_cells j rows
    | None => pl.column_cells j rows
    end.
Proof. reflexivity. Qed.

Lemma column_cells_length_all j rows :
  Forall (fun row => j < length row) rows ->
  length (pl.column_cells j rows) = length rows.
Proof.
  induction 1 as [|row rows Hrow _ IH]; [done|].
  rewrite column_cells_cons.
  destruct (lookup_lt_is_Some_2 row j Hrow) as [c ->]. simpl. by f_equal.
Qed.

Lemma column_cells_length_le j k rows :
  j <= k -> length (pl.column_cells k rows) <= length (pl.column_cells j rows).
Proof.
  intros Hjk. induction rows as [|row rows IH]; [done|].
  rewrite !column_cells_cons.
  destruct (row !! k) as [c|] eqn:Hk.
  - apply lookup_lt_Some in Hk.
    destruct (lookup_lt_is_Some_2 row j) as [d ->]; [lia|]. simpl. lia.
  - destruct (row !! j); simpl; lia.
Qed.

Lemma column_cells_length_lt k rows row :
  row ∈ rows -> 0 < length row -> length row <= k ->
  length (pl.column_cells k rows) < length (pl.column_cells 0 rows).
Proof.
  intros Hin Hpos Hk. induction Hin as [row rows|row row' rows _ IH].
  - pose proof (column_cells_length_le 0 k rows ltac:(lia)) as Hle.
    rewrite !column_cells_cons.
    rewrite (lookup_ge_None_2 row k) by done.
    destruct (lookup_lt_is_Some_2 row 0 Hpos) as [c ->]. simpl. lia.
  - rewrite !column_cells_cons.
    destruct (row' !! k) as [c|] eqn:Hk'.
    + apply lookup_lt_Some in Hk'.
      destruct (lookup_lt_is_Some_2 row' 0) as [d ->]; [lia|]. simpl. lia.
    + destruct (row' !! 0); simpl; lia.
Qed.

Lemma columns_text_columns rows names js :
  length names <= length js -> pl.columns (text_columns rows names js) = names.
Proof.
  intros Hlen. unfold pl.columns, text_columns.
  by rewrite fmap_zip_with_l.
Qed.

Lemma auto_columns rows w :
  (fun j => pl.mkSeries (pl.auto_name j) pl.Utf8
              (pl.AvString <$> pl.column_cells j rows)) <$> seq 0 w
  = text_columns rows (pl.auto_name <$> seq 0 w) (seq 0 w).
Proof. unfold text_columns. by rewrite zip_with_fmap_l, zip_with_diag. Qed.

Lemma set_column_names_text rows names0 names js :
  length names = length names0 -> length names0 = length js -> NoDup names ->
  pl.set_column_names (text_columns rows names0 js) names
  = Ok (text_columns rows names js).
Proof.
  intros Hlen Hjs Hnd. unfold pl.set_column_names, pl.ensure_names_unique, pl.width.
  assert (length (text_columns rows names0 js) = length names0) as Hw
    by (by apply length_zip_with_l_eq).
  rewrite decide_True by congruence. rewrite decide_True by done. simpl. f_equal.
  clear Hw. unfold text_columns.
  clear Hnd. revert names0 js Hlen Hjs.
  induction names as [|n names IH]; intros [|n0 names0] [|j js] ??;
    simplify_eq/=; [done|]. f_equal. by apply IH.
Qed.

Lemma from_rows_ok first rest :
  Forall (fun row => length first <= length row) rest ->
  pl.from_rows first rest
  = Ok (text_columns (first :: rest) (pl.auto_name <$> seq 0 (length first))
          (seq 0 (length first))).
Proof.
  intros Hrest. unfold pl.from_rows. rewrite auto_columns.
  apply (DataFrame_new_ok _ (length (first :: rest))).
  - rewrite columns_text_columns by (by rewrite length_fmap).
    apply auto_names_NoDup.
  - intros s (n & j & -> & _ & Hj%elem_of_seq)%elem_of_zip_with. simpl.
    rewrite length_fmap. apply (column_cells_length_all j (first :: rest)).
    constructor; [lia|]. eapply Forall_impl; [done|]. simpl. lia.
Qed.

Lemma DataFrame_new_ragged c rest s :
  NoDup (pl.columns (c :: rest)) -> s ∈ rest ->
  length (pl.values s) <> length (pl.values c) ->
  pl.DataFrame_new (c :: rest) = Err ShapeError.
Proof.
  intros Hnd Hs Hne. unfold pl.DataFrame_new, pl.ensure_names_unique.
  fold (pl.columns (c :: rest)). rewrite decide_True by done.
  cbn [bind]. case_match eqn:Hall; [|done]. exfalso.
  rewrite forallb_forall in Hall.
  apply list_elem_of_In, Hall, Nat.eqb_eq in Hs. done.
Qed.

Lemma from_rows_short first rest row :
  row ∈ rest -> 0 < length row -> length row < length first ->
  pl.from_rows first rest = Err ShapeError.
Proof.
  intros Hin Hpos Hshort. unfold pl.from_rows.
  set (F := fun j => pl.mkSeries (pl.auto_name j) pl.Utf8
                       (pl.AvString <$> pl.column_cells j (first :: rest))).
  destruct (length first) as [|w] eqn:Hw; [lia|].
  assert (NoDup (pl.columns (F <$> seq 0 (S w)))) as Hnd.
  { unfold pl.columns. rewrite <- list_fmap_compose. apply auto_names_NoDup. }
  change (seq 0 (S w)) with (0 :: seq 1 w) in *. rewrite fmap_cons in *.
  apply (DataFrame_new_ragged _ _ (F (length row))); [done| |].
  - apply (list_elem_of_fmap_2' _ _ (length row)); [|done].
    apply elem_of_seq. lia.
  - unfold F. cbn [pl.values]. rewrite !length_fmap.
    pose proof (column_cells_length_lt (length row) (first :: rest) row) as Hlt.
    specialize (Hlt ltac:(by right) Hpos ltac:(done)). lia.
Qed.

(** ** The Normalizer *)

Lemma convert_cons header rows :
  app.convert_data_to_dataframe (header :: rows) = pl.DataFrame_init rows header.
Proof. reflexivity. Qed.

Lemma convert_header_only header :
  named header -> NoDup header ->
  app.convert_data_to_dataframe [header] = Ok (empty_frame header).
Proof.
  intros Hn Hnd. rewrite convert_cons. unfold pl.DataFrame_init.
  rewrite unpack_schema_named_None by done. simpl.
  by apply DataFrame_new_empty_columns.
Qed.

Lemma post_apply_text rows names0 names js :
  length names = length names0 -> length names0 = length js -> NoDup names ->
  pl.post_apply_columns (text_columns rows names0 js) names
  = Ok (text_columns rows names js).
Proof.
  intros Hlen Hjs Hnd. unfold pl.post_apply_columns.
  rewrite columns_text_columns by lia.
  case_decide as Heq; [by subst|]. by apply set_column_names_text.
Qed.

Lemma convert_rectangular header rows :
  named header -> NoDup header -> rows <> [] -> rectangular header rows ->
  app.convert_data_to_dataframe (header :: rows) = Ok (text_frame header rows).
Proof.
  intros Hn Hnd Hrows Hrect. rewrite convert_cons. unfold pl.DataFrame_init.
  destruct rows as [|first rest]; [done|].
  apply Forall_cons in Hrect as [Hfirst Hrest].
  rewrite unpack_schema_named by done. cbn [bind].
  rewrite from_rows_ok.
  2:{ eapply Forall_impl; [done|]. simpl. lia. }
  cbn [bind]. unfold text_frame. rewrite <- Hfirst.
  apply post_apply_text; [|by rewrite length_fmap|done].
  by rewrite length_fmap, length_seq.
Qed.

Lemma text_columns_dtypes rows names js :
  length names = length js ->
  pl.dtypes (text_columns rows names js) = replicate (length names) pl.Utf8.
Proof.
  unfold text_columns, pl.dtypes. revert js.
  induction names as [|n names IH]; intros [|j js] ?; simplify_eq/=; [done|].
  f_equal. by apply IH.
Qed.

Lemma text_frame_dtypes header rows :
  pl.dtypes (text_frame header rows) = replicate (length header) pl.Utf8.
Proof. apply text_columns_dtypes. by rewrite length_seq. Qed.

Lemma text_frame_lookup header rows j s :
  text_frame header rows !! j = Some s ->
  header !! j = Some (pl.name s)
  /\ pl.dtype s = pl.Utf8
  /\ pl.values s = pl.AvString <$> pl.column_cells j rows.
Proof.
  unfold text_frame, text_columns. rewrite lookup_zip_with.
  destruct (header !! j) as [n|] eqn:Hj; [|done]. simpl.
  rewrite lookup_seq_lt by (by eapply lookup_lt_Some). simpl.
  by intros [= <-].
Qed.




(** ** The Schema Mapper *)

Lemma zip_strict_fmap {A B C} (f : C -> A) (g : C -> B) (l : list C) :
  zip_strict (f <$> l) (g <$> l) = Ok ((fun x => (f x, g x)) <$> l).
Proof.
  induction l as [|x l IH]; [done|].
  rewrite !fmap_cons. cbn [zip_strict]. by rewrite IH.
Qed.

Lemma schema_loop (pairs : list (string * pl.DataType)) acc :
  fold_left
    (fun schema '(col_name, dtype) =>
       schema ++ [bigquery.mkSchemaField col_name (app.field_type_of dtype)])
    pairs acc
  = acc ++ ((fun p => bigquery.mkSchemaField p.1 (app.field_type_of p.2)) <$> pairs).
Proof.
  revert acc. induction pairs as [|[col_name dtype] pairs IH]; intros acc; simpl.
  - by rewrite app_nil_r.
  - by rewrite IH, <- app_assoc.
Qed.

Lemma build_schema_total df : app.build_schema df = Ok (field_of <$> df).
Proof.
  unfold app.build_schema, pl.columns, pl.dtypes.
  rewrite zip_strict_fmap. cbn [bind]. f_equal.
  rewrite schema_loop. by rewrite <- list_fmap_compose.
Qed.

(** ** Claims about the Source Reader and the Normalizer *)

(** C1, counterexample.  On the grid with header [id, name, score] and the
    row ["1", "Ann", "9.5"], every value of the column [id] reads as an
    integer and the value of [score] has a decimal point, yet the
    Normalizer types all three columns as string: [id] is not integer and
    [score] is not floating-point. *)
Lemma integer_text_column_is_string :
  app.convert_data_to_dataframe [["id"; "name"; "score"]; ["1"; "Ann"; "9.5"]]
  = Ok [pl.mkSeries "id" pl.Utf8 [pl.AvString "1"];
        pl.mkSeries "name" pl.Utf8 [pl.AvString "Ann"];
        pl.mkSeries "score" pl.Utf8 [pl.AvString "9.5"]]
  /\ forallb is_integer_text (pl.column_cells 0 [["1"; "Ann"; "9.5"]]) = true
  /\ pl.Utf8 <> pl.Int64
  /\ pl.Utf8 <> pl.Float64.
Proof. split; [by vm_compute|]. split; [by vm_compute|done]. Qed.

(** The first end-to-end scenario of the specification, run through the
    Normalizer and the Schema Mapper: every field of the schema is
    [STRING]. *)
Example scenario_schema :
  (df <- app.convert_data_to_dataframe [["id"; "name"; "score"]; ["1"; "Ann"; "9.5"]];;
   app.build_schema df)
  = Ok [bigquery.mkSchemaField "id" "STRING";
        bigquery.mkSchemaField "name" "STRING";
        bigquery.mkSchemaField "score" "STRING"].
Proof. by vm_compute. Qed.

(** C1, amended.  The Normalizer parses no text.  For a grid whose header
    cells are distinct names and whose data rows (at least one) all have as
    many cells as the header, it returns the frame with the header as column
    names in which every column has the string type and holds the cells of
    its position, whatever they spell. *)
Theorem normalizer_types_text_as_string (header : list string) (rows : RawGrid) :
  named header -> NoDup header -> rows <> [] -> rectangular header rows ->
  exists df,
    app.convert_data_to_dataframe (header :: rows) = Ok df
    /\ pl.columns df = header
    /\ pl.dtypes df = replicate (length header) pl.Utf8
    /\ forall j s, df !! j = Some s ->
         pl.values s = pl.AvString <$> pl.column_cells j rows.
Proof.
  intros Hn Hnd Hrows Hrect. exists (text_frame header rows).
  split; [by apply convert_rectangular|].
  split; [apply columns_text_columns; by rewrite length_seq|].
  split; [apply text_frame_dtypes|].
  intros j s Hs. by apply text_frame_lookup in Hs as (_ & _ & ?).
Qed.

Lemma normalizer_types_text_as_string_witness :
  exists df,
    app.convert_data_to_dataframe [["id"; "score"]; ["1"; "9.5"]; ["2"; "7"]] = Ok df
    /\ pl.columns df = ["id"; "score"]
    /\ pl.dtypes df = [pl.Utf8; pl.Utf8]
    /\ forall j s, df !! j = Some s ->
         pl.values s = pl.AvString <$> pl.column_cells j [["1"; "9.5"]; ["2"; "7"]].
Proof.
  apply (normalizer_types_text_as_string ["id"; "score"] [["1"; "9.5"]; ["2"; "7"]]).
  - unfold named. repeat constructor; discriminate.
  - apply (bool_decide_unpack (NoDup _)). vm_compute. exact I.
  - discriminate.
  - unfold rectangular. repeat constructor.
Defined.

(** C2, counterexample.  A reply without a [values] entry is read as the
    empty grid, and the Normalizer raises [IndexError] on it: no table is
    produced. *)
Lemma empty_reply_crashes_normalizer :
  let service : sheets.Service :=
    fun _ _ => Ok (sheets.mkValueRange "Sheet1!A1:Z1000" "ROWS" None) in
  app.get_sheet_data service "1Ba5nr8nzBh2MSVzIOpvtmHtzWqjDT4aP5G2YBkZN1mk" "Sheet1" = Ok []
  /\ (data <- app.get_sheet_data service "1Ba5nr8nzBh2MSVzIOpvtmHtzWqjDT4aP5G2YBkZN1mk" "Sheet1";;
      app.convert_data_to_dataframe data) = Err IndexError.
Proof. split; reflexivity. Qed.

(** C2, amended.  For every reply without a [values] entry the Source
    Reader returns the empty grid (zero rows), and the Normalizer fails on
    the empty grid with [IndexError]. *)
Theorem empty_range_is_empty_grid (service : sheets.Service)
    (spreadsheet_id sheet_name : string) (reply : sheets.ValueRange) :
  service spreadsheet_id sheet_name = Ok reply ->
  sheets.values reply = None ->
  app.get_sheet_data service spreadsheet_id sheet_name = Ok []
  /\ app.convert_data_to_dataframe [] = Err IndexError.
Proof.
  intros Hreply Hvalues. split; [|done].
  unfold app.get_sheet_data. by rewrite Hreply; simpl; rewrite Hvalues.
Qed.

Lemma empty_range_is_empty_grid_witness :
  app.get_sheet_data (fun _ _ => Ok (sheets.mkValueRange "Sheet1" "ROWS" None))
    "sheet-id" "Sheet1" = Ok []
  /\ app.convert_data_to_dataframe [] = Err IndexError.
Proof.
  apply (empty_range_is_empty_grid _ "sheet-id" "Sheet1"
           (sheets.mkValueRange "Sheet1" "ROWS" None)); reflexivity.
Defined.

(** C3, counterexample.  The second data row has one cell where the header
    has two: the Normalizer raises [ShapeError] instead of filling the
    missing cell. *)
Lemma ragged_row_raises :
  app.convert_data_to_dataframe [["a"; "b"]; ["1"; "2"]; ["3"]] = Err ShapeError.
Proof. by vm_compute. Qed.

(** C3, amended.  For every grid with a data row that has at least one
    cell but fewer cells than the header row, the Normalizer does not fill
    the row: it fails with [ShapeError]. *)
Theorem ragged_row_is_shape_error (header : list string) (rows : RawGrid)
    (row : list string) :
  row ∈ rows -> 0 < length row -> length row < length header ->
  app.convert_data_to_dataframe (header :: rows) = Err ShapeError.
Proof.
  intros Hin Hpos Hshort. rewrite convert_cons. unfold pl.DataFrame_init.
  destruct rows as [|first rest]; [by apply not_elem_of_nil in Hin|].
  destruct (decide (length header = length first)) as [Heq|Hne].
  - destruct (pl.unpack_schema header _) as [names|e] eqn:Hu; cbn [bind].
    2:{ f_equal. by eapply unpack_schema_errors. }
    apply elem_of_cons in Hin as [->|Hin]; [lia|].
    rewrite (from_rows_short first rest row) by (done || lia). done.
  - rewrite unpack_schema_width_mismatch; [done| |done].
    intros ->. simpl in Hshort. lia.
Qed.

Lemma ragged_row_is_shape_error_witness :
  app.convert_data_to_dataframe [["id"; "name"; "score"]; ["1"; "Ann"]] = Err ShapeError.
Proof.
  apply (ragged_row_is_shape_error ["id"; "name"; "score"] [["1"; "Ann"]] ["1"; "Ann"]).
  - by left.
  - simpl. lia.
  - simpl. lia.
Defined.

(** C4, counterexample.  A grid that consists of a header row only, in
    which a name occurs twice: the Normalizer fails. *)
Lemma header_only_duplicate_fails :
  app.convert_data_to_dataframe [["a"; "a"]] = Err DuplicateError.
Proof. by vm_compute. Qed.

(** C4, amended.  The Normalizer fails with [IndexError] (the empty-source
    failure) exactly when the grid has zero rows; for every grid that
    consists of a header row of distinct names only, it succeeds and
    produces a table with one column per name, in the order of the header,
    and zero rows. *)
Theorem empty_source_error_iff_no_rows :
  (forall data : RawGrid,
     app.convert_data_to_dataframe data = Err IndexError <-> data = [])
  /\ (forall header : list string,
        named header -> NoDup header ->
        exists df,
          app.convert_data_to_dataframe [header] = Ok df
          /\ pl.columns df = header
          /\ Forall (fun s => pl.values s = []) df).
Proof.
  split.
  - intros [|header rows]; [done|]. split; [|done].
    rewrite convert_cons. intros [?|?]%DataFrame_init_errors; done.
  - intros header Hn Hnd. exists (empty_frame header).
    split; [by apply convert_header_only|].
    split; [apply columns_empty_frame|].
    apply Forall_fmap, Forall_true. done.
Qed.

Lemma empty_source_error_iff_no_rows_witness :
  exists df,
    app.convert_data_to_dataframe [["id"; "name"]] = Ok df
    /\ pl.columns df = ["id"; "name"]
    /\ Forall (fun s => pl.values s = []) df.
Proof.
  apply (proj2 empty_source_error_iff_no_rows ["id"; "name"]).
  - unfold named. repeat constructor; discriminate.
  - apply (bool_decide_unpack (NoDup _)). vm_compute. exact I.
Defined.

(** C7, counterexample.  A header of three cells, two of them the same
    name, and no data row: the Normalizer produces no table. *)
Lemma header_with_repeated_name_gives_no_table :
  app.convert_data_to_dataframe [["id"; "name"; "id"]] = Err DuplicateError.
Proof. by vm_compute. Qed.

(** C7, amended.  For every grid with a non-empty header of distinct names
    and zero data rows, the Normalizer produces a table whose column names
    are the header, in its order, with zero rows, and the Schema Mapper
    yields for that table a schema with one field per header column. *)
Theorem header_only_table_and_schema (header : list string) :
  header <> [] -> named header -> NoDup header ->
  exists df schema,
    app.convert_data_to_dataframe [header] = Ok df
    /\ pl.columns df = header
    /\ pl.height df = 0
    /\ app.build_schema df = Ok schema
    /\ length schema = length header
    /\ bigquery.name <$> schema = header.
Proof.
  intros Hne Hn Hnd. exists (empty_frame header), (field_of <$> empty_frame header).
  split; [by apply convert_header_only|].
  split; [apply columns_empty_frame|].
  split; [by destruct header|].
  split; [apply build_schema_total|].
  split; [unfold empty_frame; by rewrite !length_fmap|].
  rewrite <- list_fmap_compose. apply columns_empty_frame.
Qed.

Lemma header_only_table_and_schema_witness :
  exists df schema,
    app.convert_data_to_dataframe [["id"; "name"; "score"]] = Ok df
    /\ pl.columns df = ["id"; "name"; "score"]
    /\ pl.height df = 0
    /\ app.build_schema df = Ok schema
    /\ length schema = 3
    /\ bigquery.name <$> schema = ["id"; "name"; "score"].
Proof.
  apply (header_only_table_and_schema ["id"; "name"; "score"]).
  - discriminate.
  - unfold named. repeat constructor; discriminate.
  - apply (bool_decide_unpack (NoDup _)). vm_compute. exact I.
Defined.



(** ** Claims about the Schema Mapper *)

(** C5.  The Schema Mapper never fails: for every table it returns one
    field per column, named after the column, whose type is [INTEGER] for
    64-bit integers, [FLOAT] for 64-bit floats, [BOOLEAN] for booleans,
    [DATETIME] for datetimes, [DATE] for dates and [STRING] for every other
    type. *)
Theorem schema_mapper_total (df : pl.DataFrame) :
  app.build_schema df
  = Ok ((fun s => bigquery.mkSchemaField (pl.name s) (app.field_type_of (pl.dtype s)))
          <$> df)
  /\ app.field_type_of pl.Int64 = "INTEGER"
  /\ app.field_type_of pl.Float64 = "FLOAT"
  /\ app.field_type_of pl.Boolean = "BOOLEAN"
  /\ (forall tu tz, app.field_type_of (pl.Datetime tu tz) = "DATETIME")
  /\ app.field_type_of pl.Date = "DATE"
  /\ (forall dtype,
        dtype <> pl.Int64 -> dtype <> pl.Float64 -> dtype <> pl.Boolean ->
        dtype <> pl.Date -> (forall tu tz, dtype <> pl.Datetime tu tz) ->
        app.field_type_of dtype = "STRING").
Proof.
  split; [apply build_schema_total|].
  repeat split; try done.
  intros dtype ? ? ? ? Hdt. destruct dtype; try done. by destruct (Hdt time_unit time_zone).
Qed.

Lemma schema_mapper_total_witness :
  app.field_type_of pl.Utf8 = "STRING" /\ app.field_type_of pl.Null = "STRING".
Proof.
  split.
  - apply (schema_mapper_total []); discriminate.
  - apply (schema_mapper_total []); discriminate.
Defined.

(** ** The warehouse client *)

Lemma quiet_S n w r :
  quiet (S n) w -> bigquery.next_fault w = None /\ quiet n (received r w).
Proof.
  unfold quiet, bigquery.next_fault, received. simpl.
  destruct (bigquery.faults w) as [|f fs]; simpl.
  - intros _. split; [done|]. by rewrite take_nil.
  - intros [-> Hfs]%Forall_cons. by rewrite drop_0.
Qed.

Lemma send_ok r w :
  bigquery.next_fault w = None -> bigquery.send r w = (Ok (), received r w).
Proof. intros H. unfold bigquery.send. by rewrite H. Qed.

Lemma send_fault r w e :
  bigquery.next_fault w = Some e -> bigquery.send r w = (Err e, received r w).
Proof. intros H. unfold bigquery.send. by rewrite H. Qed.

Lemma get_dataset_found dataset_id w :
  bigquery.next_fault w = None -> dataset_id ∈ bigquery.datasets w ->
  bigquery.get_dataset dataset_id w
  = (Ok (), received (bigquery.GetDataset dataset_id) w).
Proof.
  intros Hq Hin. unfold bigquery.get_dataset, bigquery.mbind.
  rewrite send_ok by done. by rewrite decide_True.
Qed.

Lemma get_dataset_missing dataset_id w :
  bigquery.next_fault w = None -> dataset_id ∉ bigquery.datasets w ->
  bigquery.get_dataset dataset_id w
  = (Err NotFound, received (bigquery.GetDataset dataset_id) w).
Proof.
  intros Hq Hin. unfold bigquery.get_dataset, bigquery.mbind.
  rewrite send_ok by done. by rewrite decide_False.
Qed.

Lemma get_dataset_fault dataset_id w e :
  bigquery.next_fault w = Some e ->
  bigquery.get_dataset dataset_id w
  = (Err e, received (bigquery.GetDataset dataset_id) w).
Proof.
  intros Hq. unfold bigquery.get_dataset, bigquery.mbind.
  by rewrite (send_fault _ _ e).
Qed.

Lemma get_table_found table_id w :
  bigquery.next_fault w = None -> is_Some (bigquery.tables w !! table_id) ->
  bigquery.get_table table_id w
  = (Ok (), received (bigquery.GetTable table_id) w).
Proof.
  intros Hq [schema Hin]. unfold bigquery.get_table, bigquery.mbind.
  rewrite send_ok by done. simpl. by rewrite Hin.
Qed.

Lemma get_table_missing table_id w :
  bigquery.next_fault w = None -> bigquery.tables w !! table_id = None ->
  bigquery.get_table table_id w
  = (Err NotFound, received (bigquery.GetTable table_id) w).
Proof.
  intros Hq Hin. unfold bigquery.get_table, bigquery.mbind.
  rewrite send_ok by done. simpl. by rewrite Hin.
Qed.

Lemma get_table_fault table_id w e :
  bigquery.next_fault w = Some e ->
  bigquery.get_table table_id w
  = (Err e, received (bigquery.GetTable table_id) w).
Proof.
  intros Hq. unfold bigquery.get_table, bigquery.mbind.
  by rewrite (send_fault _ _ e).
Qed.

(** *** The dataset provisioner *)

(** Opens a provisioner down to the client calls it makes. *)
Ltac open_provisioner :=
  unfold app.create_dataset_if_not_exists, app.create_table_if_not_exists,
    bigquery.mbind, bigquery.lift, bigquery.Dataset_init, bigquery.Table_init,
    bigquery.try_except.

Lemma dataset_exists_no_create dataset_id w :
  length (str_split "." dataset_id) = 2 ->
  bigquery.next_fault w = None -> dataset_id ∈ bigquery.datasets w ->
  app.create_dataset_if_not_exists dataset_id w
  = (Ok (), received (bigquery.GetDataset dataset_id) w).
Proof.
  intros Hwf Hq Hin.
  open_provisioner.
  rewrite decide_True by done. by rewrite get_dataset_found.
Qed.

Lemma dataset_missing_created dataset_id w :
  length (str_split "." dataset_id) = 2 ->
  quiet 2 w -> dataset_id ∉ bigquery.datasets w ->
  app.create_dataset_if_not_exists dataset_id w
  = (Ok (),
     bigquery.mkWorld ({[dataset_id]} ∪ bigquery.datasets w) (bigquery.tables w)
       (bigquery.jobs w)
       (bigquery.calls w ++ [bigquery.GetDataset dataset_id]
          ++ [bigquery.CreateDataset (bigquery.mkDataset dataset_id)])
       (drop 1 (drop 1 (bigquery.faults w)))
       (bigquery.stdout w ++ ["Dataset " +:+ dataset_id +:+ " created."])).
Proof.
  intros Hwf Hq Hin.
  apply (quiet_S _ _ (bigquery.GetDataset dataset_id)) in Hq as [Hq1 Hq].
  apply (quiet_S _ _ (bigquery.CreateDataset (bigquery.mkDataset dataset_id)))
    in Hq as [Hq2 _].
  open_provisioner.
  rewrite decide_True by done. rewrite get_dataset_missing by done.
  change (app.is_NotFound NotFound) with true. cbn match.
  unfold bigquery.create_dataset, bigquery.mbind.
  rewrite send_ok by done. cbn [bigquery.dataset_id received bigquery.datasets].
  rewrite decide_False by done.
  unfold bigquery.print. simpl. by rewrite <- app_assoc.
Qed.

Lemma dataset_fetch_error_propagates dataset_id w e :
  length (str_split "." dataset_id) = 2 ->
  bigquery.next_fault w = Some e -> e <> NotFound ->
  app.create_dataset_if_not_exists dataset_id w
  = (Err e, received (bigquery.GetDataset dataset_id) w).
Proof.
  intros Hwf Hq He.
  open_provisioner.
  rewrite decide_True by done. rewrite (get_dataset_fault _ _ e) by done.
  unfold app.is_NotFound. by rewrite bool_decide_eq_false_2.
Qed.

(** *** The table provisioner *)

Lemma table_exists_no_create table_id df w :
  length (str_split "." table_id) = 3 ->
  bigquery.next_fault w = None -> is_Some (bigquery.tables w !! table_id) ->
  app.create_table_if_not_exists table_id df w
  = (Ok (), received (bigquery.GetTable table_id) w).
Proof.
  intros Hwf Hq Hin.
  open_provisioner.
  rewrite build_schema_total, decide_True by done.
  by rewrite get_table_found.
Qed.

Lemma table_missing_created table_id df w :
  length (str_split "." table_id) = 3 ->
  quiet 2 w -> bigquery.tables w !! table_id = None ->
  bigquery.parent_dataset table_id ∈ bigquery.datasets w ->
  app.create_table_if_not_exists table_id df w
  = (Ok (),
     bigquery.mkWorld (bigquery.datasets w)
       (<[table_id := field_of <$> df]> (bigquery.tables w))
       (bigquery.jobs w)
       (bigquery.calls w ++ [bigquery.GetTable table_id]
          ++ [bigquery.CreateTable (bigquery.mkTable table_id (field_of <$> df))])
       (drop 1 (drop 1 (bigquery.faults w)))
       (bigquery.stdout w ++ ["Table " +:+ table_id +:+ " created."])).
Proof.
  intros Hwf Hq Hin Hparent.
  apply (quiet_S _ _ (bigquery.GetTable table_id)) in Hq as [Hq1 Hq].
  apply (quiet_S _ _
    (bigquery.CreateTable (bigquery.mkTable table_id (field_of <$> df))))
    in Hq as [Hq2 _].
  open_provisioner.
  rewrite build_schema_total, decide_True by done.
  rewrite get_table_missing by done.
  change (app.is_NotFound NotFound) with true. cbn match.
  unfold bigquery.create_table, bigquery.mbind.
  rewrite send_ok by done.
  cbn [bigquery.table_id bigquery.schema received bigquery.tables
       bigquery.datasets].
  rewrite decide_True by done.
  rewrite Hin. unfold bigquery.print. simpl. by rewrite <- app_assoc.
Qed.

Lemma table_fetch_error_propagates table_id df w e :
  length (str_split "." table_id) = 3 ->
  bigquery.next_fault w = Some e -> e <> NotFound ->
  app.create_table_if_not_exists table_id df w
  = (Err e, received (bigquery.GetTable table_id) w).
Proof.
  intros Hwf Hq He.
  open_provisioner.
  rewrite build_schema_total, decide_True by done.
  rewrite (get_table_fault _ _ e) by done.
  unfold app.is_NotFound. by rewrite bool_decide_eq_false_2.
Qed.

Lemma provision_exists dataset_id table_id df w :
  length (str_split "." dataset_id) = 2 ->
  length (str_split "." table_id) = 3 ->
  quiet 2 w ->
  dataset_id ∈ bigquery.datasets w -> is_Some (bigquery.tables w !! table_id) ->
  app.provision dataset_id table_id df w
  = (Ok (), received (bigquery.GetTable table_id)
              (received (bigquery.GetDataset dataset_id) w)).
Proof.
  intros Hd Ht Hq Hind Hint.
  apply (quiet_S _ _ (bigquery.GetDataset dataset_id)) in Hq as [Hq1 Hq].
  apply (quiet_S _ _ (bigquery.GetTable table_id)) in Hq as [Hq2 _].
  unfold app.provision, bigquery.mbind.
  rewrite dataset_exists_no_create by done.
  by rewrite table_exists_no_create.
Qed.

Lemma quiet_received n r w : quiet (S n) w -> quiet n (received r w).
Proof. intros H. by apply (quiet_S n w r). Qed.

Lemma quiet_le n m w : n <= m -> quiet m w -> quiet n w.
Proof.
  unfold quiet. intros Hle H.
  replace n with (n `min` m) by lia. rewrite <- take_take.
  by apply Forall_take.
Qed.

Lemma alter_last {A} (f : A -> A) (l : list A) (x : A) :
  alter f (length l) (l ++ [x]) = l ++ [f x].
Proof.
  rewrite <- (Nat.add_0_r (length l)) at 1. by rewrite alter_app_r.
Qed.

(** ** Claims about the Provisioner and the Loader *)

(** C6.  With well-formed identifiers: (1) when the dataset and the table
    already exist and no request fails, running the two provisioners once,
    and then once more, returns without error, sends only fetch requests (no
    create request), prints nothing and leaves the datasets, tables and
    jobs of the warehouse as they were; (2) and (3) when the fetch reports that the
    dataset, respectively the table (of an existing dataset), is not found,
    it is created;
    (4) and (5) any other error of the fetch is raised to the caller, and
    nothing is created. *)
Theorem provisioning_idempotent (dataset_id table_id : string)
    (df : pl.DataFrame) (w : bigquery.World) :
  length (str_split "." dataset_id) = 2 ->
  length (str_split "." table_id) = 3 ->
  (dataset_id ∈ bigquery.datasets w ->
   is_Some (bigquery.tables w !! table_id) ->
   quiet 4 w ->
   let once := app.provision dataset_id table_id df w in
   let twice := app.provision dataset_id table_id df once.2 in
   once.1 = Ok () /\ twice.1 = Ok ()
   /\ bigquery.calls once.2
      = bigquery.calls w
          ++ [bigquery.GetDataset dataset_id; bigquery.GetTable table_id]
   /\ bigquery.calls twice.2
      = bigquery.calls w
          ++ [bigquery.GetDataset dataset_id; bigquery.GetTable table_id;
              bigquery.GetDataset dataset_id; bigquery.GetTable table_id]
   /\ bigquery.datasets once.2 = bigquery.datasets w
   /\ bigquery.tables once.2 = bigquery.tables w
   /\ bigquery.jobs once.2 = bigquery.jobs w
   /\ bigquery.datasets twice.2 = bigquery.datasets w
   /\ bigquery.tables twice.2 = bigquery.tables w
   /\ bigquery.jobs twice.2 = bigquery.jobs w
   /\ bigquery.stdout twice.2 = bigquery.stdout w)
  /\ (dataset_id ∉ bigquery.datasets w -> quiet 2 w ->
      let run := app.create_dataset_if_not_exists dataset_id w in
      run.1 = Ok ()
      /\ bigquery.datasets run.2 = {[dataset_id]} ∪ bigquery.datasets w
      /\ bigquery.calls run.2
         = bigquery.calls w
             ++ [bigquery.GetDataset dataset_id;
                 bigquery.CreateDataset (bigquery.mkDataset dataset_id)])
  /\ (bigquery.tables w !! table_id = None ->
      bigquery.parent_dataset table_id ∈ bigquery.datasets w -> quiet 2 w ->
      let run := app.create_table_if_not_exists table_id df w in
      run.1 = Ok ()
      /\ bigquery.tables run.2
         = <[table_id := field_of <$> df]> (bigquery.tables w)
      /\ bigquery.calls run.2
         = bigquery.calls w
             ++ [bigquery.GetTable table_id;
                 bigquery.CreateTable
                   (bigquery.mkTable table_id (field_of <$> df))])
  /\ (forall e, bigquery.next_fault w = Some e -> e <> NotFound ->
      let run := app.create_dataset_if_not_exists dataset_id w in
      run.1 = Err e
      /\ bigquery.calls run.2 = bigquery.calls w ++ [bigquery.GetDataset dataset_id]
      /\ bigquery.datasets run.2 = bigquery.datasets w
      /\ bigquery.tables run.2 = bigquery.tables w)
  /\ (forall e, bigquery.next_fault w = Some e -> e <> NotFound ->
      let run := app.create_table_if_not_exists table_id df w in
      run.1 = Err e
      /\ bigquery.calls run.2 = bigquery.calls w ++ [bigquery.GetTable table_id]
      /\ bigquery.datasets run.2 = bigquery.datasets w
      /\ bigquery.tables run.2 = bigquery.tables w).
Proof.
  intros Hd Ht. repeat apply conj.
  - intros Hind Hint Hq. cbv zeta.
    rewrite (provision_exists dataset_id table_id df w)
      by eauto using quiet_le with lia.
    cbn [fst snd].
    rewrite provision_exists; try done.
    + cbn [fst snd received bigquery.calls bigquery.datasets bigquery.tables
           bigquery.jobs bigquery.stdout].
      rewrite <- !app_assoc. done.
    + apply (quiet_le 2 4) in Hq as Hq2; [|lia].
      do 2 apply quiet_received. done.
  - intros Hin Hq. cbv zeta. rewrite dataset_missing_created by done.
    cbn [fst snd bigquery.calls bigquery.datasets]. done.
  - intros Hin Hparent Hq. cbv zeta. rewrite table_missing_created by done.
    cbn [fst snd bigquery.calls bigquery.tables]. done.
  - intros e Hq He. cbv zeta.
    by rewrite (dataset_fetch_error_propagates _ _ e).
  - intros e Hq He. cbv zeta.
    by rewrite (table_fetch_error_propagates _ _ _ e).
Qed.

Lemma provisioning_idempotent_witness :
  let w :=
    bigquery.mkWorld {["gsbq-demo.gsbq_dataset"]}
      {["gsbq-demo.gsbq_dataset.sample_table" := []]} [] [] [] [] in
  let w0 := bigquery.mkWorld ∅ ∅ [] [] [] [] in
  let w' := bigquery.mkWorld {["gsbq-demo.gsbq_dataset"]} ∅ [] [] [] [] in
  let w1 := bigquery.mkWorld ∅ ∅ [] [] [Some Forbidden] [] in
  let df := [pl.mkSeries "id" pl.Utf8 [pl.AvString "1"]] in
  (app.provision "gsbq-demo.gsbq_dataset" "gsbq-demo.gsbq_dataset.sample_table"
     df w).1 = Ok ()
  /\ (app.create_dataset_if_not_exists "gsbq-demo.gsbq_dataset" w0).1 = Ok ()
  /\ (app.create_table_if_not_exists "gsbq-demo.gsbq_dataset.sample_table" df w').1
     = Ok ()
  /\ (app.create_dataset_if_not_exists "gsbq-demo.gsbq_dataset" w1).1
     = Err Forbidden
  /\ (app.create_table_if_not_exists "gsbq-demo.gsbq_dataset.sample_table" df w1).1
     = Err Forbidden.
Proof.
  intros w w0 w' w1 df.
  destruct (provisioning_idempotent "gsbq-demo.gsbq_dataset"
              "gsbq-demo.gsbq_dataset.sample_table" df w) as (Hboth & _);
    [reflexivity|reflexivity|].
  destruct (provisioning_idempotent "gsbq-demo.gsbq_dataset"
              "gsbq-demo.gsbq_dataset.sample_table" df w0)
    as (_ & Hdataset & _); [reflexivity|reflexivity|].
  destruct (provisioning_idempotent "gsbq-demo.gsbq_dataset"
              "gsbq-demo.gsbq_dataset.sample_table" df w')
    as (_ & _ & Htable & _); [reflexivity|reflexivity|].
  destruct (provisioning_idempotent "gsbq-demo.gsbq_dataset"
              "gsbq-demo.gsbq_dataset.sample_table" df w1)
    as (_ & _ & _ & Hdataset_err & Htable_err); [reflexivity|reflexivity|].
  assert (quiet 4 w /\ quiet 2 w0 /\ quiet 2 w') as (Hw & Hw0 & Hw')
    by (unfold quiet; simpl; repeat split; constructor).
  destruct Hboth as (Hok & _);
    [unfold w; cbn [bigquery.datasets]; apply elem_of_singleton_2; reflexivity
    |exists []; unfold w; cbn [bigquery.tables]; apply lookup_singleton_eq
    |exact Hw|].
  destruct Hdataset as (Hdataset & _);
    [unfold w0; cbn [bigquery.datasets]; apply not_elem_of_empty|exact Hw0|].
  destruct Htable as (Htable & _);
    [unfold w'; cbn [bigquery.tables]; apply lookup_empty
    |unfold w'; cbn [bigquery.datasets]; apply elem_of_singleton_2; reflexivity
    |exact Hw'|].
  destruct (Hdataset_err Forbidden) as (Hderr & _); [reflexivity|discriminate|].
  destruct (Htable_err Forbidden) as (Hterr & _); [reflexivity|discriminate|].
  repeat split; assumption.
Defined.

(** C8.  For every table and table identifier the Loader sends the load
    request exactly once, configured with schema autodetection on and the
    append write disposition.  When the warehouse refuses the request, its
    error is raised and no job exists; otherwise exactly one job is started
    and the Loader waits for it: when the Loader returns or raises, that job
    is [DONE], and the Loader raises exactly when the job ended in error. *)
Theorem loader_submits_one_append_job (df : pl.DataFrame) (table_id : string)
    (w : bigquery.World) :
  let run := app.upload_to_bigquery df table_id w in
  let config := bigquery.mkLoadJobConfig true "WRITE_APPEND" in
  let load := bigquery.Load (pl.to_pandas df) table_id config in
  match bigquery.next_fault w with
  | Some e =>
      run.1 = Err e
      /\ bigquery.calls run.2 = bigquery.calls w ++ [load]
      /\ bigquery.jobs run.2 = bigquery.jobs w
  | None =>
      exists outcome,
        bigquery.calls run.2
        = bigquery.calls w ++ [load; bigquery.WaitJob (length (bigquery.jobs w))]
        /\ bigquery.jobs run.2
           = bigquery.jobs w
               ++ [bigquery.mkLoadJob table_id config (pl.to_pandas df)
                     bigquery.DONE outcome]
        /\ run.1 = match outcome with None => Ok () | Some e => Err e end
  end.
Proof.
  cbv zeta.
  unfold app.upload_to_bigquery, bigquery.load_table_from_dataframe, bigquery.mbind.
  destruct (bigquery.next_fault w) as [e|] eqn:Hq.
  - by rewrite (send_fault _ _ e).
  - rewrite send_ok by done. unfold bigquery.job_result.
    cbn [received bigquery.jobs bigquery.calls bigquery.datasets bigquery.tables
         bigquery.faults bigquery.stdout].
    set (w' := bigquery.mkWorld _ _ _ _ _ _).
    exists (bigquery.next_fault w').
    destruct (bigquery.next_fault w') as [e|];
      cbn [fst snd bigquery.jobs bigquery.calls];
      by rewrite alter_last, <- app_assoc.
Qed.

(** ** Identifiers: splitting and joining *)

Lemma append_cons (c : ascii) (a b : string) :
  String c a +:+ b = String c (a +:+ b).
Proof. reflexivity. Qed.

Lemma append_nil_r (s : string) : s +:+ EmptyString = s.
Proof. induction s as [|c s IH]; [done|]. by rewrite append_cons, IH. Qed.

Lemma append_assoc (a b c : string) : (a +:+ b) +:+ c = a +:+ b +:+ c.
Proof. induction a as [|d a IH]; [done|]. by rewrite !append_cons, IH. Qed.

Lemma str_split_cons sep s : exists seg segs, str_split sep s = seg :: segs.
Proof.
  destruct s as [|c s]; simpl; [by eexists _, _|].
  case_decide; [by eexists _, _|]. destruct (str_split sep s); by eexists _, _.
Qed.

Lemma str_join_cons sep seg seg' segs :
  str_join sep (seg :: seg' :: segs) = seg +:+ sep +:+ str_join sep (seg' :: segs).
Proof. reflexivity. Qed.

Lemma str_join_split sep s :
  str_join (String sep EmptyString) (str_split sep s) = s.
Proof.
  induction s as [|c s IH]; [done|]. cbn [str_split].
  destruct (str_split_cons sep s) as (w & ws & Hs). rewrite Hs in IH |- *.
  case_decide as Hc.
  - subst c. by rewrite str_join_cons, IH.
  - destruct ws as [|w' ws]; [by rewrite <- IH|].
    rewrite str_join_cons in IH |- *. by rewrite append_cons, IH.
Qed.

Lemma str_split_dot_free sep s :
  Forall (fun seg => has_char sep seg = false) (str_split sep s).
Proof.
  induction s as [|c s IH]; [by repeat constructor|]. cbn [str_split].
  case_decide as Hc; [by constructor|].
  destruct (str_split sep s) as [|w ws].
  - repeat constructor. simpl. by rewrite decide_False.
  - apply Forall_cons in IH as [Hw Hws]. constructor; [|done].
    simpl. by rewrite decide_False.
Qed.

Lemma str_split_no_sep sep s :
  has_char sep s = false -> str_split sep s = [s].
Proof.
  induction s as [|c s IH]; [done|]. simpl.
  case_decide; [done|]. intros Hs. by rewrite IH.
Qed.

Lemma str_split_join sep segs :
  segs <> [] -> Forall (fun seg => has_char sep seg = false) segs ->
  str_split sep (str_join (String sep EmptyString) segs) = segs.
Proof.
  intros Hne Hfree. induction Hfree as [|seg segs Hseg Hsegs IH]; [done|].
  destruct segs as [|seg' segs].
  - by apply str_split_no_sep.
  - rewrite str_join_cons.
    change (String sep EmptyString +:+ ?x) with (String sep x).
    rewrite str_split_segment by done. by rewrite IH.
Qed.


Lemma str_join_take_prefix sep segs n :
  exists rest, str_join sep segs = str_join sep (take n segs) +:+ rest.
Proof.
  revert n. induction segs as [|seg segs IH]; intros n.
  - exists EmptyString. by rewrite take_nil.
  - destruct n as [|n]; [by eexists|].
    destruct segs as [|seg' segs].
    + exists EmptyString. change (take (S n) [seg]) with (seg :: take n []).
      rewrite take_nil. simpl. by rewrite append_nil_r.
    + destruct n as [|n].
      * by exists (sep +:+ str_join sep (seg' :: segs)).
      * destruct (IH (S n)) as [rest Hrest]. exists rest.
        change (take (S (S n)) (seg :: seg' :: segs))
          with (seg :: seg' :: take n segs).
        change (take (S n) (seg' :: segs)) with (seg' :: take n segs) in Hrest.
        rewrite (str_join_cons sep seg seg' segs), Hrest.
        rewrite (str_join_cons sep seg seg' (take n segs)).
        by rewrite !append_assoc.
Qed.

Lemma take_split_nonempty sep s n :
  take (S n) (str_split sep s) <> [].
Proof. destruct (str_split_cons sep s) as (w & ws & ->). done. Qed.

Lemma dataset_id_segments table_id :
  str_split "." (app.dataset_id_of table_id) = take 2 (str_split "." table_id).
Proof.
  unfold app.dataset_id_of, slice_to. apply str_split_join.
  - apply take_split_nonempty.
  - apply Forall_take, str_split_dot_free.
Qed.

(** X1.  Splitting and joining on the dot are inverse to each other, as
    line 107 uses them: joining the segments of any text gives the text
    back, and splitting the join of a non-empty list of dot-free segments
    gives the segments back. *)
Theorem split_join_round_trip :
  (forall s : string, str_join "." (str_split "." s) = s)
  /\ (forall segments : list string,
        segments <> [] -> dot_free segments ->
        str_split "." (str_join "." segments) = segments).
Proof.
  split.
  - intros s. apply str_join_split.
  - intros segments Hne Hfree. by apply str_split_join.
Qed.

Lemma split_join_round_trip_witness :
  str_split "." (str_join "." ["gsbq-demo"; "gsbq_dataset"])
  = ["gsbq-demo"; "gsbq_dataset"].
Proof.
  apply (proj2 split_join_round_trip ["gsbq-demo"; "gsbq_dataset"]).
  - discriminate.
  - unfold dot_free. repeat constructor.
Defined.

(** X2.  For every table identifier, the dataset identifier of line 107 is
    a prefix of it; computing it again from the result changes nothing; and
    an identifier of at most two segments is returned as it is. *)
Theorem dataset_id_prefix_and_fixpoint (table_id : string) :
  (exists rest, table_id = app.dataset_id_of table_id +:+ rest)
  /\ app.dataset_id_of (app.dataset_id_of table_id) = app.dataset_id_of table_id
  /\ (length (str_split "." table_id) <= 2 -> app.dataset_id_of table_id = table_id).
Proof.
  split; [|split].
  - destruct (str_join_take_prefix "." (str_split "." table_id) 2) as [rest Hrest].
    exists rest. by rewrite str_join_split in Hrest.
  - unfold app.dataset_id_of at 1. rewrite dataset_id_segments.
    unfold slice_to. by rewrite take_idemp.
  - intros Hlen. unfold app.dataset_id_of, slice_to.
    rewrite take_ge by done. apply str_join_split.
Qed.

Lemma dataset_id_prefix_and_fixpoint_witness :
  app.dataset_id_of "gsbq-demo.gsbq_dataset" = "gsbq-demo.gsbq_dataset".
Proof.
  apply (dataset_id_prefix_and_fixpoint "gsbq-demo.gsbq_dataset").
  vm_compute. lia.
Defined.



(** ** The provisioners on every world *)

(** Opens the client calls down to the world they act on. *)
Ltac open_client :=
  unfold bigquery.get_dataset, bigquery.create_dataset, bigquery.get_table,
    bigquery.create_table, bigquery.load_table_from_dataframe,
    bigquery.job_result, bigquery.mbind, bigquery.send, bigquery.print,
    app.is_NotFound.

Lemma dataset_provisioner_outcome dataset_id w :
  let run := app.create_dataset_if_not_exists dataset_id w in
  bigquery.tables run.2 = bigquery.tables w
  /\ bigquery.jobs run.2 = bigquery.jobs w
  /\ ((run.1 = Ok () /\ dataset_id ∈ bigquery.datasets w
       /\ bigquery.datasets run.2 = bigquery.datasets w
       /\ bigquery.stdout run.2 = bigquery.stdout w)
      \/ (run.1 = Ok () /\ (dataset_id ∉ bigquery.datasets w)
          /\ bigquery.datasets run.2 = {[dataset_id]} ∪ bigquery.datasets w
          /\ bigquery.stdout run.2
             = bigquery.stdout w ++ [dataset_notice dataset_id])
      \/ (exists e, run.1 = Err e
          /\ bigquery.datasets run.2 = bigquery.datasets w
          /\ bigquery.stdout run.2 = bigquery.stdout w)).
Proof.
  cbv zeta. open_provisioner. open_client.
  repeat first [case_decide | case_match | case_bool_decide];
    simplify_eq/=; eauto 10.
Qed.

Lemma table_provisioner_outcome table_id df w :
  let run := app.create_table_if_not_exists table_id df w in
  bigquery.datasets run.2 = bigquery.datasets w
  /\ bigquery.jobs run.2 = bigquery.jobs w
  /\ ((run.1 = Ok () /\ is_Some (bigquery.tables w !! table_id)
       /\ bigquery.tables run.2 = bigquery.tables w
       /\ bigquery.stdout run.2 = bigquery.stdout w)
      \/ (run.1 = Ok () /\ bigquery.tables w !! table_id = None
          /\ bigquery.tables run.2
             = <[table_id := field_of <$> df]> (bigquery.tables w)
          /\ bigquery.stdout run.2 = bigquery.stdout w ++ [table_notice table_id])
      \/ (exists e, run.1 = Err e
          /\ bigquery.tables run.2 = bigquery.tables w
          /\ bigquery.stdout run.2 = bigquery.stdout w)).
Proof.
  cbv zeta. open_provisioner. rewrite build_schema_total. open_client.
  repeat first [case_decide | case_match | case_bool_decide];
    simplify_eq/=; eauto 10.
Qed.



(** X5.  In every world and under every schedule of failures, when the
    dataset provisioner returns without error the dataset exists; it never
    removes a dataset, adds none but the one asked for, and leaves the
    tables and the jobs alone. *)
Theorem dataset_provisioner_ensures (dataset_id : string) (w : bigquery.World) :
  let run := app.create_dataset_if_not_exists dataset_id w in
  (run.1 = Ok () -> dataset_id ∈ bigquery.datasets run.2)
  /\ bigquery.datasets w ⊆ bigquery.datasets run.2
  /\ bigquery.datasets run.2 ⊆ {[dataset_id]} ∪ bigquery.datasets w
  /\ bigquery.tables run.2 = bigquery.tables w
  /\ bigquery.jobs run.2 = bigquery.jobs w.
Proof.
  destruct (dataset_provisioner_outcome dataset_id w) as (Ht & Hj & Hcases).
  cbv zeta. rewrite Ht, Hj.
  destruct Hcases as [(Hr & Hin & -> & _)|[(Hr & Hin & -> & _)|(e & Hr & -> & _)]];
    rewrite Hr; repeat split; try done; set_solver.
Qed.

Lemma dataset_provisioner_ensures_witness :
  "gsbq-demo.gsbq_dataset"
  ∈ bigquery.datasets
      (app.create_dataset_if_not_exists "gsbq-demo.gsbq_dataset"
         (bigquery.mkWorld ∅ ∅ [] [] [] [])).2.
Proof.
  apply (dataset_provisioner_ensures "gsbq-demo.gsbq_dataset"
           (bigquery.mkWorld ∅ ∅ [] [] [] [])).
  reflexivity.
Defined.

(** X6.  In every world and under every schedule of failures, when the
    table provisioner returns without error the table exists; a table that
    existed before keeps its schema, whatever the schema of the data is; the
    only table it can add is the one asked for, with the schema mapped from
    the data; datasets and jobs are left alone. *)
Theorem table_provisioner_ensures (table_id : string) (df : pl.DataFrame)
    (w : bigquery.World) :
  let run := app.create_table_if_not_exists table_id df w in
  (run.1 = Ok () -> is_Some (bigquery.tables run.2 !! table_id))
  /\ (forall t schema, bigquery.tables w !! t = Some schema ->
        bigquery.tables run.2 !! t = Some schema)
  /\ (forall t schema, bigquery.tables run.2 !! t = Some schema ->
        bigquery.tables w !! t = Some schema
        \/ (t = table_id /\ schema = field_of <$> df))
  /\ bigquery.datasets run.2 = bigquery.datasets w
  /\ bigquery.jobs run.2 = bigquery.jobs w.
Proof.
  destruct (table_provisioner_outcome table_id df w)
    as (Hd & Hj & [(Hr & Hin & Ht & _)|[(Hr & Hin & Ht & _)|(e & Hr & Ht & _)]]);
    cbv zeta; rewrite Ht, Hr; repeat split; try done; auto.
  - intros _. rewrite lookup_insert_eq. by eexists.
  - intros t schema Hs. destruct (decide (t = table_id)) as [->|Hne]; [congruence|].
    by rewrite lookup_insert_ne.
  - intros t schema. destruct (decide (t = table_id)) as [->|Hne].
    + rewrite lookup_insert_eq. intros [= <-]. by right.
    + rewrite lookup_insert_ne by done. by left.
Qed.

Lemma table_provisioner_ensures_witness :
  let w := bigquery.mkWorld {["gsbq-demo.gsbq_dataset"]}
             {["gsbq-demo.gsbq_dataset.sample_table" :=
                 [bigquery.mkSchemaField "id" "INTEGER"]]} [] [] [] [] in
  let df := [pl.mkSeries "id" pl.Utf8 [pl.AvString "1"]] in
  bigquery.tables
    (app.create_table_if_not_exists "gsbq-demo.gsbq_dataset.sample_table" df w).2
    !! "gsbq-demo.gsbq_dataset.sample_table"
  = Some [bigquery.mkSchemaField "id" "INTEGER"].
Proof.
  intros w df.
  apply (table_provisioner_ensures "gsbq-demo.gsbq_dataset.sample_table" df w).
  unfold w. cbn [bigquery.tables]. apply lookup_singleton_eq.
Defined.

(** X7.  A provisioner prints its creation notice exactly when it has
    created the resource in this call: with the notice the resource was
    absent before and the call returned without error; otherwise nothing is
    printed. *)
Theorem creation_notice_iff_created (dataset_id table_id : string)
    (df : pl.DataFrame) (w : bigquery.World) :
  let dataset_run := app.create_dataset_if_not_exists dataset_id w in
  let table_run := app.create_table_if_not_exists table_id df w in
  ((dataset_run.1 = Ok () /\ (dataset_id ∉ bigquery.datasets w)
    /\ bigquery.stdout dataset_run.2
       = bigquery.stdout w ++ [dataset_notice dataset_id])
   \/ ((dataset_run.1 <> Ok () \/ dataset_id ∈ bigquery.datasets w)
       /\ bigquery.stdout dataset_run.2 = bigquery.stdout w))
  /\ ((table_run.1 = Ok () /\ bigquery.tables w !! table_id = None
       /\ bigquery.stdout table_run.2 = bigquery.stdout w ++ [table_notice table_id])
      \/ ((table_run.1 <> Ok () \/ is_Some (bigquery.tables w !! table_id))
          /\ bigquery.stdout table_run.2 = bigquery.stdout w)).
Proof.
  cbv zeta. split.
  - destruct (dataset_provisioner_outcome dataset_id w)
      as (_ & _ & [(Hr & Hin & _ & Hs)|[(Hr & Hin & _ & Hs)|(e & Hr & _ & Hs)]]);
      rewrite Hr, Hs; [right|left|right]; auto.
  - destruct (table_provisioner_outcome table_id df w)
      as (_ & _ & [(Hr & Hin & _ & Hs)|[(Hr & Hin & _ & Hs)|(e & Hr & _ & Hs)]]);
      rewrite Hr, Hs; [right|left|right]; auto.
Qed.

(** ** Every table the Normalizer returns *)

Lemma DataFrame_new_heights cols df :
  pl.DataFrame_new cols = Ok df ->
  forall s, s ∈ df -> length (pl.values s) = pl.height df.
Proof.
  unfold pl.DataFrame_new, pl.ensure_names_unique.
  case_decide; cbn [bind]; [|done].
  destruct cols as [|c rest]; [intros [= <-] s Hs; by apply not_elem_of_nil in Hs|].
  case_match eqn:Hall; [|done]. intros [= <-] s Hs. cbn [pl.height].
  apply elem_of_cons in Hs as [->|Hs]; [done|].
  rewrite forallb_forall in Hall.
  by apply list_elem_of_In, Hall, Nat.eqb_eq in Hs.
Qed.

Lemma rename_columns names (df : pl.DataFrame) :
  length names = length df ->
  let renamed :=
    zip_with (fun n s => pl.mkSeries n (pl.dtype s) (pl.values s)) names df in
  pl.columns renamed = names
  /\ pl.values <$> renamed = pl.values <$> df
  /\ pl.dtypes renamed = pl.dtypes df.
Proof.
  cbv zeta. unfold pl.columns, pl.dtypes. revert df.
  induction names as [|n names IH]; intros [|s df] Hlen; simplify_eq/=; [done|].
  destruct (IH df) as (-> & -> & ->); done.
Qed.

Lemma heights_of_values (df df' : pl.DataFrame) :
  pl.values <$> df' = pl.values <$> df ->
  (forall s, s ∈ df -> length (pl.values s) = pl.height df) ->
  forall s, s ∈ df' -> length (pl.values s) = pl.height df'.
Proof.
  intros Hv Hdf s Hs.
  assert (pl.height df' = pl.height df) as ->.
  { destruct df, df'; simplify_eq/=; congruence. }
  apply (list_elem_of_fmap_2 pl.values) in Hs. rewrite Hv in Hs.
  apply list_elem_of_fmap in Hs as (s0 & -> & Hs0). by apply Hdf.
Qed.

Lemma unpack_schema_same_length schema n names :
  schema <> [] -> pl.unpack_schema schema n = Ok names ->
  length names = length schema.
Proof.
  intros Hne. unfold pl.unpack_schema. destruct schema as [|c schema]; [done|].
  destruct n as [n|]; [case_decide; [|done]|]; intros [= <-];
    simpl; f_equal; apply length_imap.
Qed.

Lemma DataFrame_init_well_formed data schema df :
  pl.DataFrame_init data schema = Ok df ->
  NoDup (pl.columns df)
  /\ (forall s, s ∈ df -> length (pl.values s) = pl.height df)
  /\ Forall (fun d => d = pl.Utf8 \/ d = pl.Null) (pl.dtypes df)
  /\ (schema <> [] -> length df = length schema).
Proof.
  unfold pl.DataFrame_init. destruct data as [|first rest].
  - destruct (pl.unpack_schema schema None) as [names|e] eqn:Hu; cbn [bind]; [|done].
    intros Hnew. pose proof (DataFrame_new_heights _ _ Hnew) as Hh.
    apply DataFrame_new_unique in Hnew as [-> Hnd].
    repeat split; [done|done| |].
    + unfold pl.dtypes. rewrite <- list_fmap_compose.
      apply Forall_fmap, Forall_true. intros n. by right.
    + intros Hne. rewrite length_fmap. by eapply unpack_schema_same_length.
  - destruct (pl.unpack_schema schema _) as [names|e] eqn:Hu; cbn [bind]; [|done].
    destruct (pl.from_rows first rest) as [df0|e] eqn:Hrows; cbn [bind]; [|done].
    unfold pl.from_rows in Hrows.
    pose proof (DataFrame_new_heights _ _ Hrows) as Hh.
    apply DataFrame_new_unique in Hrows as [Hdf0 Hnd].
    assert (Forall (fun d => d = pl.Utf8 \/ d = pl.Null) (pl.dtypes df0)) as Hty.
    { rewrite Hdf0. unfold pl.dtypes. rewrite <- list_fmap_compose.
      apply Forall_fmap, Forall_true. intros j. by left. }
    assert (schema <> [] -> length df0 = length schema) as Hlen.
    { intros Hne. rewrite Hdf0, length_fmap, length_seq.
      destruct schema as [|c schema]; [done|]. unfold pl.unpack_schema in Hu.
      case_decide as Hw; [|done]. by rewrite length_imap in Hw. }
    unfold pl.post_apply_columns, pl.set_column_names, pl.ensure_names_unique, pl.width.
    case_decide; [by intros [= <-]|].
    case_decide as Hwidth; [|done]. case_decide; cbn [bind]; [|done].
    intros [= <-]. destruct (rename_columns names df0 Hwidth) as (Hc & Hv & Hd).
    rewrite Hc, Hd. repeat split; [done| |done|].
    + by apply (heights_of_values df0).
    + intros Hne. rewrite length_zip_with_r_eq by done. by apply Hlen.
Qed.

(** X8.  Every table the Normalizer returns is well formed: its column
    names are pairwise distinct, all its columns have the same number of
    values, and, when the header is not empty, it has one column per header
    cell. *)
Theorem normalizer_table_well_formed (data : RawGrid) (df : pl.DataFrame) :
  app.convert_data_to_dataframe data = Ok df ->
  NoDup (pl.columns df)
  /\ (forall s, s ∈ df -> length (pl.values s) = pl.height df)
  /\ (forall header rows, data = header :: rows -> header <> [] ->
        length (pl.columns df) = length header).
Proof.
  destruct data as [|header rows]; [done|]. rewrite convert_cons.
  intros (Hnd & Hh & _ & Hlen)%DataFrame_init_well_formed.
  repeat split; [done|done|]. intros ? ? [= <- <-] Hne.
  unfold pl.columns. rewrite length_fmap. by apply Hlen.
Qed.

Lemma normalizer_table_well_formed_witness :
  exists df,
    app.convert_data_to_dataframe [["id"; "name"]; ["1"; "Ann"]; ["2"; "Bob"]] = Ok df
    /\ NoDup (pl.columns df)
    /\ (forall s, s ∈ df -> length (pl.values s) = pl.height df).
Proof.
  eexists. split; [reflexivity|].
  destruct (normalizer_table_well_formed
              [["id"; "name"]; ["1"; "Ann"]; ["2"; "Bob"]] _ eq_refl)
    as (Hnd & Hh & _).
  split; [exact Hnd|exact Hh].
Defined.

(** X9.  Whatever the sheet holds, the schema that the Schema Mapper
    derives from a table of the Normalizer has only [STRING] fields, one per
    column and named after it: the branches for integers, floats, booleans,
    dates and datetimes are never taken on the table the script builds. *)
Theorem normalized_schema_is_all_string (data : RawGrid) (df : pl.DataFrame) :
  app.convert_data_to_dataframe data = Ok df ->
  app.build_schema df
  = Ok ((fun n => bigquery.mkSchemaField n "STRING") <$> pl.columns df).
Proof.
  destruct data as [|header rows]; [done|]. rewrite convert_cons.
  intros (_ & _ & Hty & _)%DataFrame_init_well_formed.
  rewrite build_schema_total. f_equal.
  unfold pl.columns, pl.dtypes in *. rewrite <- list_fmap_compose.
  apply list_eq. intros i. rewrite !list_lookup_fmap.
  destruct (df !! i) as [s|] eqn:Hs; [|done]. simpl. f_equal.
  rewrite Forall_lookup in Hty. unfold field_of. f_equal.
  destruct (Hty i (pl.dtype s)) as [-> | ->]; [|done|done].
  by rewrite list_lookup_fmap, Hs.
Qed.

Lemma normalized_schema_is_all_string_witness :
  exists df,
    app.convert_data_to_dataframe [["id"; "score"]; ["1"; "9.5"]] = Ok df
    /\ app.build_schema df
       = Ok [bigquery.mkSchemaField "id" "STRING";
             bigquery.mkSchemaField "score" "STRING"].
Proof.
  eexists. split; [reflexivity|].
  apply (normalized_schema_is_all_string [["id"; "score"]; ["1"; "9.5"]]).
  reflexivity.
Defined.

(** ** The main block *)

Lemma quiet_drop n k w w' :
  bigquery.faults w' = drop k (bigquery.faults w) ->
  quiet (k + n) w -> quiet n w'.
Proof.
  unfold quiet. intros -> Hq.
  rewrite <- take_take_drop in Hq. by apply Forall_app in Hq as [_ Hq].
Qed.

Lemma upload_quiet df table_id w :
  quiet 2 w ->
  app.upload_to_bigquery df table_id w
  = (Ok (),
     bigquery.mkWorld (bigquery.datasets w) (bigquery.tables w)
       (bigquery.jobs w
          ++ [bigquery.mkLoadJob table_id app.job_config (pl.to_pandas df)
                bigquery.DONE None])
       (bigquery.calls w
          ++ [bigquery.Load (pl.to_pandas df) table_id app.job_config]
          ++ [bigquery.WaitJob (length (bigquery.jobs w))])
       (drop 1 (drop 1 (bigquery.faults w))) (bigquery.stdout w)).
Proof.
  intros Hq.
  apply (quiet_S _ _ (bigquery.Load (pl.to_pandas df) table_id app.job_config))
    in Hq as [Hq1 Hq].
  apply (quiet_S _ _ (bigquery.WaitJob 0)) in Hq as [Hq2 _].
  unfold app.upload_to_bigquery, bigquery.load_table_from_dataframe, bigquery.mbind.
  rewrite send_ok by done. unfold bigquery.job_result.
  cbn [received bigquery.jobs bigquery.calls bigquery.datasets bigquery.tables
       bigquery.faults bigquery.stdout].
  unfold bigquery.next_fault, received in Hq2 |- *.
  cbn [bigquery.faults] in Hq2 |- *.
  destruct (drop 1 (bigquery.faults w)) as [|[e|] fs] eqn:Hf; try done;
    by rewrite alter_last, <- app_assoc.
Qed.


Lemma normalized_fields data df :
  app.convert_data_to_dataframe data = Ok df ->
  field_of <$> df = (fun n => bigquery.mkSchemaField n "STRING") <$> pl.columns df.
Proof.
  intros Hdf. pose proof (build_schema_total df) as Hb.
  destruct data as [|header rows]; [done|]. rewrite convert_cons in Hdf.
  apply DataFrame_init_well_formed in Hdf as (_ & _ & Hty & _).
  unfold pl.columns, pl.dtypes in *. rewrite <- list_fmap_compose.
  apply list_eq. intros i. rewrite !list_lookup_fmap.
  destruct (df !! i) as [s|] eqn:Hs; [|done]. simpl. f_equal.
  rewrite Forall_lookup in Hty. unfold field_of. f_equal.
  destruct (Hty i (pl.dtype s)) as [-> | ->]; [|done|done].
  by rewrite list_lookup_fmap, Hs.
Qed.

Lemma run_after_normalizer service reply grid df w :
  service main.spreadsheet_id main.sheet_name = Ok reply ->
  sheets.values reply = Some grid ->
  app.convert_data_to_dataframe grid = Ok df ->
  main.run service w
  = (_ <-- app.create_dataset_if_not_exists (app.dataset_id_of main.table_id);;;
     _ <-- app.create_table_if_not_exists main.table_id df;;;
     _ <-- app.upload_to_bigquery df main.table_id;;;
     bigquery.print success_line) w.
Proof.
  intros Hreply Hvalues Hdf.
  unfold main.run, app.get_sheet_data, bigquery.mbind at 1 2, bigquery.lift.
  rewrite Hreply. cbn [bind]. rewrite Hvalues.
  change (default [] (Some grid)) with grid. by rewrite Hdf.
Qed.

(** X10.  A run that fails before provisioning does not touch the
    warehouse and prints nothing: when the source read raises, when the
    reply has no values (an empty sheet, [IndexError]), or when the
    Normalizer raises, the main block raises the same error and the world
    is exactly as before, with no request sent. *)
Theorem run_fails_before_warehouse (service : sheets.Service)
    (w : bigquery.World) :
  (forall e, service main.spreadsheet_id main.sheet_name = Err e ->
     main.run service w = (Err e, w))
  /\ (forall reply,
        service main.spreadsheet_id main.sheet_name = Ok reply ->
        sheets.values reply = None ->
        main.run service w = (Err IndexError, w))
  /\ (forall reply grid e,
        service main.spreadsheet_id main.sheet_name = Ok reply ->
        sheets.values reply = Some grid ->
        app.convert_data_to_dataframe grid = Err e ->
        main.run service w = (Err e, w)).
Proof.
  unfold main.run, app.get_sheet_data, bigquery.mbind, bigquery.lift.
  repeat split.
  - intros e ->. done.
  - intros reply Hreply Hvalues. rewrite Hreply. cbn [bind]. by rewrite Hvalues.
  - intros reply grid e Hreply Hvalues Hgrid. rewrite Hreply. cbn [bind].
    rewrite Hvalues. change (default [] (Some grid)) with grid. by rewrite Hgrid.
Qed.

Lemma run_fails_before_warehouse_witness :
  let w := bigquery.mkWorld ∅ ∅ [] [] [] [] in
  main.run (fun _ _ => Err HttpError) w = (Err HttpError, w)
  /\ main.run (fun _ _ => Ok (sheets.mkValueRange "Sheet1" "ROWS" None)) w
     = (Err IndexError, w)
  /\ main.run (fun _ _ => Ok (sheets.mkValueRange "Sheet1" "ROWS"
                                (Some [["id"; "name"]; ["1"]]))) w
     = (Err ShapeError, w).
Proof.
  intros w.
  destruct (run_fails_before_warehouse (fun _ _ => Err HttpError) w)
    as (Hread & _).
  destruct (run_fails_before_warehouse
              (fun _ _ => Ok (sheets.mkValueRange "Sheet1" "ROWS" None)) w)
    as (_ & Hempty & _).
  destruct (run_fails_before_warehouse
              (fun _ _ => Ok (sheets.mkValueRange "Sheet1" "ROWS"
                                (Some [["id"; "name"]; ["1"]]))) w)
    as (_ & _ & Hragged).
  split; [|split].
  - apply Hread. reflexivity.
  - apply (Hempty (sheets.mkValueRange "Sheet1" "ROWS" None)); reflexivity.
  - apply (Hragged (sheets.mkValueRange "Sheet1" "ROWS"
                      (Some [["id"; "name"]; ["1"]]))
             [["id"; "name"]; ["1"]]); reflexivity.
Defined.

Lemma run_first service reply grid df w :
  service main.spreadsheet_id main.sheet_name = Ok reply ->
  sheets.values reply = Some grid ->
  app.convert_data_to_dataframe grid = Ok df ->
  app.dataset_id_of main.table_id ∉ bigquery.datasets w ->
  bigquery.tables w !! main.table_id = None ->
  quiet 6 w ->
  main.run service w
  = (Ok (),
     bigquery.mkWorld
       ({[app.dataset_id_of main.table_id]} ∪ bigquery.datasets w)
       (<[main.table_id := field_of <$> df]> (bigquery.tables w))
       (bigquery.jobs w ++ [finished_job df None])
       (((bigquery.calls w
            ++ [bigquery.GetDataset (app.dataset_id_of main.table_id)]
            ++ [bigquery.CreateDataset
                  (bigquery.mkDataset (app.dataset_id_of main.table_id))])
           ++ [bigquery.GetTable main.table_id]
           ++ [bigquery.CreateTable
                 (bigquery.mkTable main.table_id (field_of <$> df))])
          ++ [bigquery.Load (pl.to_pandas df) main.table_id app.job_config]
          ++ [bigquery.WaitJob (length (bigquery.jobs w))])
       (drop 1 (drop 1 (drop 1 (drop 1 (drop 1 (drop 1 (bigquery.faults w)))))))
       (((bigquery.stdout w ++ [dataset_notice (app.dataset_id_of main.table_id)])
           ++ [table_notice main.table_id])
          ++ [success_line])).
Proof.
  intros Hreply Hvalues Hdf Hds Htb Hq.
  rewrite (run_after_normalizer service reply grid df) by done.
  unfold bigquery.mbind.
  rewrite dataset_missing_created; [|reflexivity|apply (quiet_le 2 6); [lia|done]|done].
  rewrite table_missing_created; [|reflexivity| |done|].
  2:{ eapply (quiet_drop 2 2); [|apply (quiet_le 4 6); [lia|done]].
      cbn [bigquery.faults]. by rewrite drop_drop. }
  2:{ cbn [bigquery.datasets]. apply elem_of_union_l, elem_of_singleton_2.
      reflexivity. }
  rewrite upload_quiet.
  2:{ eapply (quiet_drop 2 4); [|done].
      cbn [bigquery.faults]. by rewrite !drop_drop. }
  reflexivity.
Qed.

Lemma run_steady service reply grid df w :
  service main.spreadsheet_id main.sheet_name = Ok reply ->
  sheets.values reply = Some grid ->
  app.convert_data_to_dataframe grid = Ok df ->
  app.dataset_id_of main.table_id ∈ bigquery.datasets w ->
  is_Some (bigquery.tables w !! main.table_id) ->
  quiet 4 w ->
  main.run service w
  = (Ok (),
     bigquery.mkWorld (bigquery.datasets w) (bigquery.tables w)
       (bigquery.jobs w ++ [finished_job df None])
       (((bigquery.calls w
            ++ [bigquery.GetDataset (app.dataset_id_of main.table_id)])
           ++ [bigquery.GetTable main.table_id])
          ++ [bigquery.Load (pl.to_pandas df) main.table_id app.job_config]
          ++ [bigquery.WaitJob (length (bigquery.jobs w))])
       (drop 1 (drop 1 (drop 1 (drop 1 (bigquery.faults w)))))
       (bigquery.stdout w ++ [success_line])).
Proof.
  intros Hreply Hvalues Hdf Hds Htb Hq.
  rewrite (run_after_normalizer service reply grid df) by done.
  unfold bigquery.mbind.
  apply (quiet_S _ _ (bigquery.GetDataset (app.dataset_id_of main.table_id)))
    in Hq as [Hq1 Hq].
  rewrite dataset_exists_no_create; [|reflexivity|done|done].
  apply (quiet_S _ _ (bigquery.GetTable main.table_id)) in Hq as [Hq2 Hq].
  rewrite table_exists_no_create; [|reflexivity|done|done].
  by rewrite upload_quiet.
Qed.

(** X11.  First run.  When the sheet normalizes to a table, neither the
    dataset nor the table exists and no request fails, the main block
    returns without error after exactly six requests, in this order: fetch
    and create the dataset, fetch and create the table, load, wait.  The
    table is created with one [STRING] field per column, one load job with
    the rows of the table has ended without error, and the two creation
    notices and then the success line are printed. *)
Theorem first_run_creates_and_loads (service : sheets.Service)
    (reply : sheets.ValueRange) (grid : RawGrid) (df : pl.DataFrame)
    (w : bigquery.World) :
  service main.spreadsheet_id main.sheet_name = Ok reply ->
  sheets.values reply = Some grid ->
  app.convert_data_to_dataframe grid = Ok df ->
  "gsbq-demo.gsbq_dataset" ∉ bigquery.datasets w ->
  bigquery.tables w !! main.table_id = None ->
  quiet 6 w ->
  let run := main.run service w in
  let fields := (fun n => bigquery.mkSchemaField n "STRING") <$> pl.columns df in
  run.1 = Ok ()
  /\ bigquery.datasets run.2 = {["gsbq-demo.gsbq_dataset"]} ∪ bigquery.datasets w
  /\ bigquery.tables run.2 = <[main.table_id := fields]> (bigquery.tables w)
  /\ bigquery.jobs run.2 = bigquery.jobs w ++ [finished_job df None]
  /\ bigquery.calls run.2
     = bigquery.calls w
         ++ [bigquery.GetDataset "gsbq-demo.gsbq_dataset";
             bigquery.CreateDataset (bigquery.mkDataset "gsbq-demo.gsbq_dataset");
             bigquery.GetTable main.table_id;
             bigquery.CreateTable (bigquery.mkTable main.table_id fields);
             bigquery.Load (pl.to_pandas df) main.table_id app.job_config;
             bigquery.WaitJob (length (bigquery.jobs w))]
  /\ bigquery.stdout run.2
     = bigquery.stdout w
         ++ [dataset_notice "gsbq-demo.gsbq_dataset";
             table_notice main.table_id; success_line].
Proof.
  intros Hreply Hvalues Hdf Hds Htb Hq. cbv zeta.
  rewrite (run_first service reply grid df) by done.
  rewrite <- (normalized_fields grid df) by done.
  cbn [fst snd bigquery.datasets bigquery.tables bigquery.jobs bigquery.calls
       bigquery.stdout].
  rewrite <- !app_assoc. done.
Qed.

Lemma first_run_creates_and_loads_witness :
  let service : sheets.Service :=
    fun _ _ => Ok (sheets.mkValueRange "Sheet1" "ROWS"
                     (Some [["id"; "name"]; ["1"; "Ann"]])) in
  let run := main.run service (bigquery.mkWorld ∅ ∅ [] [] [] []) in
  run.1 = Ok ()
  /\ bigquery.stdout run.2
     = [dataset_notice "gsbq-demo.gsbq_dataset"; table_notice main.table_id;
        success_line].
Proof.
  intros service.
  destruct (first_run_creates_and_loads service
              (sheets.mkValueRange "Sheet1" "ROWS"
                 (Some [["id"; "name"]; ["1"; "Ann"]]))
              [["id"; "name"]; ["1"; "Ann"]]
              [pl.mkSeries "id" pl.Utf8 [pl.AvString "1"];
               pl.mkSeries "name" pl.Utf8 [pl.AvString "Ann"]]
              (bigquery.mkWorld ∅ ∅ [] [] [] []))
    as (Hok & _ & _ & _ & _ & Hout).
  - reflexivity.
  - reflexivity.
  - reflexivity.
  - cbn [bigquery.datasets]. apply not_elem_of_empty.
  - cbn [bigquery.tables]. apply lookup_empty.
  - unfold quiet. simpl. constructor.
  - split; [exact Hok|exact Hout].
Defined.

(** X12.  Later runs.  When the dataset and the table exist and no request
    fails, a run only fetches them, loads and waits; it changes neither the
    datasets nor the tables.  Nothing remembers what an earlier run loaded:
    two runs in a row on the same sheet start two load jobs with the same
    rows. *)
Theorem later_runs_append_again (service : sheets.Service)
    (reply : sheets.ValueRange) (grid : RawGrid) (df : pl.DataFrame)
    (w : bigquery.World) :
  service main.spreadsheet_id main.sheet_name = Ok reply ->
  sheets.values reply = Some grid ->
  app.convert_data_to_dataframe grid = Ok df ->
  "gsbq-demo.gsbq_dataset" ∈ bigquery.datasets w ->
  is_Some (bigquery.tables w !! main.table_id) ->
  quiet 8 w ->
  let once := main.run service w in
  let twice := main.run service once.2 in
  once.1 = Ok () /\ twice.1 = Ok ()
  /\ bigquery.datasets twice.2 = bigquery.datasets w
  /\ bigquery.tables twice.2 = bigquery.tables w
  /\ bigquery.jobs once.2 = bigquery.jobs w ++ [finished_job df None]
  /\ bigquery.jobs twice.2
     = bigquery.jobs w ++ [finished_job df None; finished_job df None]
  /\ bigquery.calls twice.2
     = bigquery.calls w
         ++ [bigquery.GetDataset "gsbq-demo.gsbq_dataset";
             bigquery.GetTable main.table_id;
             bigquery.Load (pl.to_pandas df) main.table_id app.job_config;
             bigquery.WaitJob (length (bigquery.jobs w));
             bigquery.GetDataset "gsbq-demo.gsbq_dataset";
             bigquery.GetTable main.table_id;
             bigquery.Load (pl.to_pandas df) main.table_id app.job_config;
             bigquery.WaitJob (S (length (bigquery.jobs w)))]
  /\ bigquery.stdout twice.2 = bigquery.stdout w ++ [success_line; success_line].
Proof.
  intros Hreply Hvalues Hdf Hds Htb Hq. cbv zeta.
  rewrite (run_steady service reply grid df w); try done.
  2:{ apply (quiet_le 4 8); [lia|done]. }
  cbn [fst snd].
  rewrite (run_steady service reply grid df); try done.
  2:{ eapply (quiet_drop 4 4); [|done]. cbn [bigquery.faults].
      by rewrite !drop_drop. }
  cbn [fst snd bigquery.datasets bigquery.tables bigquery.jobs bigquery.calls
       bigquery.stdout].
  rewrite length_app, Nat.add_1_r. rewrite <- !app_assoc. done.
Qed.

Lemma later_runs_append_again_witness :
  let service : sheets.Service :=
    fun _ _ => Ok (sheets.mkValueRange "Sheet1" "ROWS"
                     (Some [["id"; "name"]; ["1"; "Ann"]])) in
  let w := bigquery.mkWorld {["gsbq-demo.gsbq_dataset"]}
             {[main.table_id := [bigquery.mkSchemaField "id" "STRING"]]}
             [] [] [] [] in
  let df := [pl.mkSeries "id" pl.Utf8 [pl.AvString "1"];
             pl.mkSeries "name" pl.Utf8 [pl.AvString "Ann"]] in
  bigquery.jobs (main.run service (main.run service w).2).2
  = [finished_job df None; finished_job df None].
Proof.
  intros service w df.
  destruct (later_runs_append_again service
              (sheets.mkValueRange "Sheet1" "ROWS"
                 (Some [["id"; "name"]; ["1"; "Ann"]]))
              [["id"; "name"]; ["1"; "Ann"]] df w)
    as (_ & _ & _ & _ & _ & Hjobs & _).
  - reflexivity.
  - reflexivity.
  - reflexivity.
  - unfold w. cbn [bigquery.datasets]. apply elem_of_singleton_2. reflexivity.
  - exists [bigquery.mkSchemaField "id" "STRING"].
    unfold w. cbn [bigquery.tables]. apply lookup_singleton_eq.
  - unfold quiet. simpl. constructor.
  - exact Hjobs.
Defined.




(** ** The DAG *)

Lemma endswith_append c a b :
  b <> EmptyString -> os.endswith c (a +:+ b) = os.endswith c b.
Proof.
  intros Hb. induction a as [|d a IH]; [done|].
  rewrite append_cons. cbn [os.endswith]. rewrite IH.
  destruct (a +:+ b) eqn:Hab; [|done].
  destruct a, b; done.
Qed.

Lemma path_join_script home :
  os.path_join home ["gsbq"; "app.py"]
  = if bool_decide (home = EmptyString) || os.endswith "/" home
    then home +:+ "gsbq/app.py"
    else home +:+ "/gsbq/app.py".
Proof.
  unfold os.path_join. cbn [fold_left].
  assert (forall p, os.path_join_step (p +:+ "gsbq") "app.py"
                    = p +:+ "gsbq/app.py") as Hstep.
  { intros p. unfold os.path_join_step. cbn [os.startswith].
    rewrite bool_decide_eq_false_2 by done.
    rewrite bool_decide_eq_false_2 by (by destruct p).
    rewrite endswith_append by done. cbn [orb os.endswith].
    rewrite bool_decide_eq_false_2 by done. by rewrite append_assoc. }
  unfold os.path_join_step at 2. cbn [os.startswith].
  rewrite bool_decide_eq_false_2 by done.
  destruct (bool_decide (home = EmptyString) || os.endswith "/" home).
  - apply Hstep.
  - rewrite <- append_assoc, Hstep. by rewrite append_assoc.
Qed.

(** X14.  The script the DAG runs, by environment.  Without
    [AIRFLOW_HOME] it is [/usr/local/airflow/gsbq/app.py]; with a non-empty
    value it is [gsbq/app.py] under that directory, with exactly one
    separator whether or not the value ends with one; and a variable that
    is set but empty does not fall back to the default: the path is then the
    relative [gsbq/app.py]. *)
Theorem script_path_by_environment (environ : gmap string string) :
  (environ !! "AIRFLOW_HOME" = None ->
   dags.gsbq_script_path environ = "/usr/local/airflow/gsbq/app.py")
  /\ (forall home,
        environ !! "AIRFLOW_HOME" = Some home ->
        home <> EmptyString -> os.endswith "/" home = false ->
        dags.gsbq_script_path environ = home +:+ "/gsbq/app.py")
  /\ (forall home,
        environ !! "AIRFLOW_HOME" = Some home -> os.endswith "/" home = true ->
        dags.gsbq_script_path environ = home +:+ "gsbq/app.py")
  /\ (environ !! "AIRFLOW_HOME" = Some EmptyString ->
      dags.gsbq_script_path environ = "gsbq/app.py"
      /\ dags.bash_command environ = "python gsbq/app.py").
Proof.
  unfold dags.bash_command, dags.gsbq_script_path, os.getenv.
  rewrite path_join_script. split; [|split; [|split]].
  - by intros ->.
  - intros home -> Hne Hend. rewrite Hend.
    by rewrite bool_decide_eq_false_2.
  - intros home -> Hend. rewrite Hend. by rewrite orb_true_r.
  - by intros ->.
Qed.

Lemma script_path_by_environment_witness :
  dags.gsbq_script_path ∅ = "/usr/local/airflow/gsbq/app.py"
  /\ dags.gsbq_script_path {["AIRFLOW_HOME" := "/opt/airflow"]}
     = "/opt/airflow/gsbq/app.py"
  /\ dags.gsbq_script_path {["AIRFLOW_HOME" := "/opt/airflow/"]}
     = "/opt/airflow/gsbq/app.py"
  /\ dags.gsbq_script_path {["AIRFLOW_HOME" := EmptyString]} = "gsbq/app.py".
Proof.
  split; [|split; [|split]].
  - apply (script_path_by_environment ∅). apply lookup_empty.
  - apply (proj1 (proj2 (script_path_by_environment
                           {["AIRFLOW_HOME" := "/opt/airflow"]})) "/opt/airflow").
    + apply lookup_singleton_eq.
    + discriminate.
    + reflexivity.
  - apply (proj1 (proj2 (proj2 (script_path_by_environment
                           {["AIRFLOW_HOME" := "/opt/airflow/"]}))) "/opt/airflow/").
    + apply lookup_singleton_eq.
    + reflexivity.
  - apply (proj2 (proj2 (proj2 (script_path_by_environment
                           {["AIRFLOW_HOME" := EmptyString]})))).
    apply lookup_singleton_eq.
Defined.

(** ** Requests of a run *)






(** ** The cells of the sheet in the load *)

Lemma column_cells_lookup j rows i row cell :
  Forall (fun r => j < length r) rows ->
  rows !! i = Some row -> row !! j = Some cell ->
  pl.column_cells j rows !! i = Some cell.
Proof.
  intros Hall. revert i. induction Hall as [|r rows Hr _ IH]; intros i Hi Hj; [done|].
  rewrite column_cells_cons.
  destruct (lookup_lt_is_Some_2 r j Hr) as [c Hc]. rewrite Hc.
  destruct i as [|i]; simplify_eq/=; [congruence|]. by apply IH.
Qed.

(** X16.  No cell is lost or moved between the sheet and the load.  For a
    grid whose header cells are distinct names and whose data rows all have
    as many cells as the header, the Normalizer succeeds, and the cell in
    data row [i] under the header cell [name] at position [j] is value [i]
    of the column [j], named [name], of what the Loader sends. *)
Theorem sheet_cells_reach_the_load (header : list string) (rows : RawGrid) :
  named header -> NoDup header -> rows <> [] -> rectangular header rows ->
  exists df,
    app.convert_data_to_dataframe (header :: rows) = Ok df
    /\ forall i j row cell name,
         rows !! i = Some row -> row !! j = Some cell ->
         header !! j = Some name ->
         exists vals,
           pl.to_pandas df !! j = Some (name, vals)
           /\ vals !! i = Some (pl.AvString cell).
Proof.
  intros Hn Hnd Hrows Hrect. exists (text_frame header rows).
  split; [by apply convert_rectangular|].
  intros i j row cell name Hi Hj Hname.
  exists (pl.AvString <$> pl.column_cells j rows). split.
  - unfold pl.to_pandas, text_frame, text_columns.
    rewrite list_lookup_fmap, lookup_zip_with, Hname. cbn [mbind option_bind].
    rewrite lookup_seq_lt by (by eapply lookup_lt_Some). done.
  - rewrite list_lookup_fmap.
    rewrite (column_cells_lookup j rows i row cell); [done| |done|done].
    eapply Forall_impl; [exact Hrect|]. cbn beta. intros r ->.
    by eapply lookup_lt_Some.
Qed.

Lemma sheet_cells_reach_the_load_witness :
  exists df,
    app.convert_data_to_dataframe [["id"; "name"]; ["1"; "Ann"]; ["2"; "Bob"]] = Ok df
    /\ exists vals,
         pl.to_pandas df !! 1 = Some ("name", vals)
         /\ vals !! 1 = Some (pl.AvString "Bob").
Proof.
  destruct (sheet_cells_reach_the_load ["id"; "name"] [["1"; "Ann"]; ["2"; "Bob"]])
    as (df & Hdf & Hcells).
  - unfold named. repeat constructor; discriminate.
  - apply (bool_decide_unpack (NoDup _)). vm_compute. exact I.
  - discriminate.
  - unfold rectangular. repeat constructor.
  - exists df. split; [exact Hdf|].
    apply (Hcells 1 1 ["2"; "Bob"] "Bob" "name"); reflexivity.
Defined.
